(** * NeuroPoetBot: the command handlers of [neuropoet-tgbot/src/commands.py]

    A shallow embedding of the handlers [cmd_emotions], [cmd_format]
    (the /generate command), [cmd_history] and [cmd_health], and of the
    Python built-ins they rely on ([str.split], [str.isdigit], [int],
    [max] with a key, [enumerate]).

    - A handler is a computation in the monad [M]: it produces the list of
      calls it made to its collaborators (emotion client, poetry client,
      database, global state) and of the messages it sent, in program
      order, together with the way it ended (normal return or an
      exception leaving the handler).
    - The collaborators are a record [Env]: one field per method, giving
      what the call returns or raises.  Every method is called at most
      once per handler run with given arguments, so a field per method
      describes an arbitrary collaborator.
    - Sending to the chat ([reply], [answer], [edit_text], [react]),
      [print] and [logging.error] are outputs recorded in the trace.
    - The tasks of [asyncio.gather] in [cmd_health] settle in an order
      chosen by the event loop; the handler takes that choice as an
      argument and every choice is allowed.
    - A text is a [string] whose characters are the code points 0 to 255;
      [isspace] and [isdigit] follow Python on that range.  A score is a
      rational number. *)

From Stdlib Require Import List String Ascii Bool Arith NArith ZArith QArith Lia.
From Stdlib Require Import Permutation.
Import ListNotations.

Set Implicit Arguments.

(** ** Python values and built-ins *)

Module Py.

(** The exceptions the handlers can meet.  All are subclasses of
    [Exception], which is what every [except Exception] clause of the
    source catches.  [Failure n] stands for any other exception raised by
    a collaborator. *)
Inductive exn : Type :=
| AttributeError
| ValueError
| KeyError
| TimeoutError
| Failure (code : nat).

(** The result of evaluating a Python expression or call. *)
Inductive Outcome (A : Type) : Type :=
| Returns (a : A)
| Raises (e : exn).

Arguments Returns {A} a.
Arguments Raises {A} e.

Local Open Scope string_scope.
Local Open Scope N_scope.

(** [str.isspace] of one character, for code points below 256
    (Unicode White_Space and the separators FS, GS, RS, US). *)
Definition isspace (c : ascii) : bool :=
  let n := N_of_ascii c in
  ((9 <=? n) && (n <=? 13)) || ((28 <=? n) && (n <=? 32))
  || (n =? 133) || (n =? 160).

(** A decimal digit 0-9. *)
Definition isdecimal (c : ascii) : bool :=
  let n := N_of_ascii c in (48 <=? n) && (n <=? 57).

(** [str.isdigit] of one character: the decimal digits and, below 256,
    the superscripts U+00B2, U+00B3, U+00B9. *)
Definition isdigit_char (c : ascii) : bool :=
  let n := N_of_ascii c in
  isdecimal c || (n =? 178) || (n =? 179) || (n =? 185).

Fixpoint all_chars (p : ascii -> bool) (s : string) : bool :=
  match s with
  | EmptyString => true
  | String c s' => p c && all_chars p s'
  end.

(** [s.isdigit()]: every character is a digit and there is at least one. *)
Definition isdigit (s : string) : bool :=
  match s with
  | EmptyString => false
  | _ => all_chars isdigit_char s
  end.

(** Truth value of a [str]: non-empty. *)
Definition truthy_str (s : string) : bool :=
  match s with EmptyString => false | _ => true end.

(** Truth value of a [list]: non-empty. *)
Definition truthy_list {A} (l : list A) : bool :=
  match l with [] => false | _ => true end.

(** Skips the leading whitespace. *)
Fixpoint lstrip (s : string) : string :=
  match s with
  | EmptyString => EmptyString
  | String c s' => if isspace c then lstrip s' else s
  end.

(** Cuts [s] at its first whitespace character: the word before it and
    the rest, which starts with that character (or is empty). *)
Fixpoint span_word (s : string) : string * string :=
  match s with
  | EmptyString => (EmptyString, EmptyString)
  | String c s' =>
      if isspace c then (EmptyString, s)
      else let (w, r) := span_word s' in (String c w, r)
  end.

(** [s.split(maxsplit=1)]: the first word, then the remainder without its
    leading whitespace when something is left of it. *)
Definition split_maxsplit1 (s : string) : list string :=
  match lstrip s with
  | EmptyString => []
  | s1 =>
      let (w, r) := span_word s1 in
      match lstrip r with
      | EmptyString => [w]
      | r1 => [w; r1]
      end
  end.

(** [s.split()]: the maximal runs of non-whitespace characters.  [cur] is
    the word being read. *)
Fixpoint split_from (cur : string) (s : string) : list string :=
  match s with
  | EmptyString => if truthy_str cur then [cur] else []
  | String c s' =>
      if isspace c
      then (if truthy_str cur then cur :: split_from EmptyString s'
            else split_from EmptyString s')
      else split_from (cur ++ String c EmptyString) s'
  end.

Definition split (s : string) : list string := split_from EmptyString s.

(** [l[1:]] *)
Definition slice_from_1 {A} (l : list A) : list A := tl l.

Local Open Scope Z_scope.

(** Value of a string of decimal digits read from the left, [acc] being
    the value of what was read.  [int] rejects the superscript digits that
    [isdigit] accepts. *)
Fixpoint int_from (acc : Z) (s : string) : Outcome Z :=
  match s with
  | EmptyString => Returns acc
  | String c s' =>
      if isdecimal c
      then int_from (10 * acc + (Z.of_N (N_of_ascii c) - 48)) s'
      else Raises ValueError
  end.

(** [int(s)] for a string without sign, blanks or underscores.  Among
    the code points 0 to 255 the decimal digits are 0-9: [int] reads
    these and raises on the superscripts.  (The interpreter's bound on
    the number of digits, 4300 by default, is beyond the 4096 characters
    of a Telegram message and is left out.) *)
Definition int (s : string) : Outcome Z :=
  match s with
  | EmptyString => Raises ValueError
  | _ => int_from 0 s
  end.

(** [a > b] on scores. *)
Definition Qgt_bool (a b : Q) : bool := negb (Qle_bool a b).

(** One step of [max]: the running maximum is replaced only by an item
    whose key is strictly greater. *)
Definition max_step {A} (key : A -> Q) (best item : A) : A :=
  if Qgt_bool (key item) (key best) then item else best.

(** [max(items, key=key)]: [ValueError] on an empty sequence. *)
Definition max_by {A} (key : A -> Q) (items : list A) : Outcome A :=
  match items with
  | [] => Raises ValueError
  | first :: rest => Returns (fold_left (max_step key) rest first)
  end.

End Py.

(** ** The handlers of commands.py *)

Module Commands.

Import Py.

Local Open Scope Z_scope.

(** *** Data *)

(** A mapping from emotion label to score, in the iteration order of the
    Python [dict]. *)
Definition Emotions : Type := list (string * Q).

Record EmotionAnalyzeRequestDto : Type := {
  ea_user_id : Z;
  ea_message : string
}.

Record EmotionAnalyzeResponseDto : Type := {
  emotions : Emotions
}.

Record PoetryGenerationRequestDto : Type := {
  pg_user_id : Z;
  pg_emotions : Emotions
}.

Record PoetryGenerationResponseDto : Type := {
  poem : string
}.

(** The rows [get_user_history] returns. [performed_at] is a timestamp. *)
Record EmotionRecord : Type := {
  er_performed_at : Z;
  er_emotions : Emotions
}.

Record GenerationRecord : Type := {
  gr_performed_at : Z;
  request_text : string;
  response_text : string
}.

(** [history['emotions']] and [history['generations']]. *)
Record History : Type := {
  h_emotions : list EmotionRecord;
  h_generations : list GenerationRecord
}.

(** The incoming message: [message.from_user.id] and [message.text],
    which is [None] for a message without text. *)
Record Message : Type := {
  from_user_id : Z;
  text : option string
}.

(** The services of [cmd_health], in the order of [service_order]. *)
Inductive Service : Type := emotion | poetry | database.

(** A service status: the strings "checking", "success" and "error". *)
Inductive Status : Type := checking | success | error.

(** The members of [Emoji] the handlers use. *)
Inductive Emoji : Type :=
| THINK | HOURGLASS | CHECK_MARK | CROSSOUT | THUMBS_UP | THUMBS_DOWN | WARNING.

(** One element of the [response] list of [cmd_history]. *)
Inductive Line : Type :=
| EmotionsHeader
| EmotionLine (idx : nat) (performed_at : Z) (top_emotion : string * Q)
| GenerationsHeader
| GenerationLine (idx : nat) (performed_at : Z) (request response : string).

(** The texts the handlers send. *)
Inductive Notice : Type :=
| EmotionsUsage            (* "Напишите текст после команды: /emotions <текст>" *)
| EmotionsReport (e : Emotions)       (* "Распознанные эмоции: ..." *)
| EmotionServiceUnavailable           (* "Сервис анализа эмоций недоступен" *)
| EmotionAnalysisError                (* "Ошибка анализа эмоций" *)
| GenerateUsage            (* "Напишите текст после команды: /generate <текст>" *)
| PoemReport (p : string)             (* "Сгенерированное стихотворение: ..." *)
| PoetryServiceUnavailable (* "Сервис генерации стихотворений недоступен" *)
| PoemGenerationError                 (* "Ошибка генерации стихотворения" *)
| HistoryEmpty                        (* "Ваша история пуста" *)
| HistoryListing (lines : list Line)
| HistoryError                        (* "Не удалось загрузить историю" *)
| HealthChecking                      (* "Проверка статуса сервисов..." *)
| HealthTable (rows : list (Emoji * Service))
| HealthCritical (e : exn).           (* "Критическая ошибка: ..." *)

(** Everything a handler does to the outside, with what it got back. *)
Inductive Event : Type :=
| Call_get_emotion_api (o : Outcome unit)
| Call_get_poetry_api (o : Outcome unit)
| Call_get_database (o : Outcome unit)
| Call_analyze_emotions (request : EmotionAnalyzeRequestDto)
    (o : Outcome (option EmotionAnalyzeResponseDto))
| Call_generate_poem (request : PoetryGenerationRequestDto)
    (o : Outcome (option PoetryGenerationResponseDto))
| Call_log_emotion_analysis (user_id : Z) (e : Emotions) (o : Outcome unit)
| Call_log_generation (user_id : Z) (request response : string)
    (o : Outcome unit)
| Call_get_user_history (user_id : Z) (limit : Z) (o : Outcome History)
| Call_check_health (name : Service) (o : Outcome bool)
| Reply (n : Notice)
| Answer (n : Notice)
| Edit_text (n : Notice)
| React (e : Emoji)
| Print
| Logging_error (e : exn).

Definition Trace : Type := list Event.

(** A health probe: it settles after some time with a result or an
    exception, or never settles. *)
Inductive Probe : Type :=
| Settles (after : Q) (o : Outcome bool)
| Hangs.

(** The collaborators.  A client or database call that yields [None]
    stands for any falsy response. *)
Record Env : Type := {
  get_emotion_api : Outcome unit;
  get_poetry_api : Outcome unit;
  get_database : Outcome unit;
  analyze_emotions :
    EmotionAnalyzeRequestDto -> Outcome (option EmotionAnalyzeResponseDto);
  generate_poem :
    PoetryGenerationRequestDto -> Outcome (option PoetryGenerationResponseDto);
  log_emotion_analysis : Z -> Emotions -> Outcome unit;
  log_generation : Z -> string -> string -> Outcome unit;
  get_user_history : Z -> Z -> Outcome History;
  check_health : Service -> Probe
}.

(** *** The handler monad: a trace and an outcome *)

Definition M (A : Type) : Type := (Trace * Outcome A)%type.

Definition ret {A} (a : A) : M A := ([], Returns a).

Definition raise {A} (e : exn) : M A := ([], Raises e).

Definition bind {A B} (m : M A) (f : A -> M B) : M B :=
  match m with
  | (t, Returns a) => let (t', r) := f a in (t ++ t', r)
  | (t, Raises e) => (t, Raises e)
  end.

(** [try: body  except Exception as e: handler e] *)
Definition try_except {A} (body : M A) (handler : exn -> M A) : M A :=
  match body with
  | (t, Returns a) => (t, Returns a)
  | (t, Raises e) => let (t', r) := handler e in (t ++ t', r)
  end.

(** An output. *)
Definition emit (ev : Event) : M unit := ([ev], Returns tt).

(** A call to a collaborator: recorded with its outcome. *)
Definition call {A} (ev : Outcome A -> Event) (o : Outcome A) : M A :=
  ([ev o], o).

(** A pure expression that may raise. *)
Definition eval {A} (o : Outcome A) : M A := ([], o).

Definition trace {A} (m : M A) : Trace := fst m.
Definition outcome {A} (m : M A) : Outcome A := snd m.

Declare Scope handler_scope.
Delimit Scope handler_scope with handler.
Notation "x <- c ;; k" := (bind c (fun x => k))
  (at level 61, c at next level, right associativity) : handler_scope.
Notation "c ;; k" := (bind c (fun _ => k))
  (at level 61, right associativity) : handler_scope.
Local Open Scope handler_scope.

(** [for x in l: body x], collecting what the bodies produce. *)
Fixpoint for_each {A B} (body : A -> M B) (l : list A) : M (list B) :=
  match l with
  | [] => ret []
  | x :: l' => y <- body x ;; ys <- for_each body l' ;; ret (y :: ys)
  end.

(** [enumerate(l, start)] *)
Fixpoint enumerate {A} (start : nat) (l : list A) : list (nat * A) :=
  match l with
  | [] => []
  | x :: l' => (start, x) :: enumerate (S start) l'
  end.

(** *** Command text *)

(** [command, *args = message.text.split(maxsplit=1)] followed by
    [text = args[0] if args else ""]: [AttributeError] without a text,
    [ValueError] when there is no word to bind [command] to. *)
Definition command_text (message : Message) : Outcome string :=
  match text message with
  | None => Raises AttributeError
  | Some t =>
      match split_maxsplit1 t with
      | [] => Raises ValueError
      | _command :: args =>
          Returns (match args with a :: _ => a | [] => EmptyString end)
      end
  end.

(** *** /emotions *)

Definition cmd_emotions (env : Env) (message : Message) : M unit :=
  try_except
    (text <- eval (command_text message) ;;
     if negb (truthy_str text) then
       emit (Reply EmotionsUsage)
     else
       _api <- call Call_get_emotion_api (get_emotion_api env) ;;
       let request :=
         {| ea_user_id := from_user_id message; ea_message := text |} in
       response <- call (Call_analyze_emotions request)
                        (analyze_emotions env request) ;;
       emit Print ;;
       match response with
       | Some response =>
           _database <- call Call_get_database (get_database env) ;;
           call (Call_log_emotion_analysis (from_user_id message)
                   (emotions response))
                (log_emotion_analysis env (from_user_id message)
                   (emotions response)) ;;
           emit (Reply (EmotionsReport (emotions response)))
       | None =>
           emit (Reply EmotionServiceUnavailable)
       end)
    (fun e =>
       emit (Logging_error e) ;;
       emit (Reply EmotionAnalysisError)).

(** *** /generate *)

Definition cmd_format (env : Env) (message : Message) : M unit :=
  try_except
    (text <- eval (command_text message) ;;
     if negb (truthy_str text) then
       emit (Reply GenerateUsage)
     else
       _emotion_api <- call Call_get_emotion_api (get_emotion_api env) ;;
       _poetry_api <- call Call_get_poetry_api (get_poetry_api env) ;;
       _database <- call Call_get_database (get_database env) ;;
       let emotion_request :=
         {| ea_user_id := from_user_id message; ea_message := text |} in
       emotion_response <- call (Call_analyze_emotions emotion_request)
                                (analyze_emotions env emotion_request) ;;
       match emotion_response with
       | None =>
           emit (Reply EmotionServiceUnavailable)
       | Some emotion_response =>
           let emotions := emotions emotion_response in
           call (Call_log_emotion_analysis (from_user_id message) emotions)
                (log_emotion_analysis env (from_user_id message) emotions) ;;
           let poetry_request :=
             {| pg_user_id := from_user_id message;
                pg_emotions := emotions |} in
           poetry_response <- call (Call_generate_poem poetry_request)
                                   (generate_poem env poetry_request) ;;
           match poetry_response with
           | None =>
               emit (Reply PoetryServiceUnavailable)
           | Some poetry_response =>
               let poem := poem poetry_response in
               call (Call_log_generation (from_user_id message) text poem)
                    (log_generation env (from_user_id message) text poem) ;;
               emit (Reply (PoemReport poem))
           end
       end)
    (fun e =>
       emit (Logging_error e) ;;
       emit (Reply PoemGenerationError)).

(** *** /history *)

Definition DEFAULT_LIMIT : Z := 5.
Definition MAX_LIMIT : Z := 20.

(** [args = message.text.split()[1:]] *)
Definition history_args (message : Message) : Outcome (list string) :=
  match text message with
  | None => Raises AttributeError
  | Some t => Returns (slice_from_1 (split t))
  end.

(** [limit = 5], replaced by [min(int(args[0]), 20)] when there is a first
    argument and it [isdigit]. *)
Definition parse_limit (args : list string) : Outcome Z :=
  match args with
  | a :: _ =>
      if isdigit a then
        match int a with
        | Returns n => Returns (Z.min n MAX_LIMIT)
        | Raises e => Raises e
        end
      else Returns DEFAULT_LIMIT
  | [] => Returns DEFAULT_LIMIT
  end.

(** The limit [cmd_history] asks the database for. *)
Definition history_limit (message : Message) : Outcome Z :=
  match history_args message with
  | Returns args => parse_limit args
  | Raises e => Raises e
  end.

(** [top_emotion = max(emotion.emotions.items(), key=lambda x: x[1])] *)
Definition top_emotion (emotion : EmotionRecord) : Outcome (string * Q) :=
  max_by snd (er_emotions emotion).

(** The body of the loop over [history['emotions']]. *)
Definition format_emotion (item : nat * EmotionRecord) : M Line :=
  let (idx, emotion) := item in
  emit Print ;;
  top <- eval (top_emotion emotion) ;;
  ret (EmotionLine idx (er_performed_at emotion) top).

(** The body of the loop over [history['generations']]. *)
Definition format_generation (item : nat * GenerationRecord) : Line :=
  let (idx, gen) := item in
  GenerationLine idx (gr_performed_at gen) (request_text gen)
    (response_text gen).

Definition cmd_history (env : Env) (message : Message) : M unit :=
  try_except
    (let user_id := from_user_id message in
     limit <- eval (history_limit message) ;;
     _database <- call Call_get_database (get_database env) ;;
     history <- call (Call_get_user_history user_id limit)
                     (get_user_history env user_id limit) ;;
     if negb (truthy_list (h_emotions history))
        && negb (truthy_list (h_generations history))
     then emit (Answer HistoryEmpty)
     else
       emotion_lines <-
         (if truthy_list (h_emotions history) then
            lines <- for_each format_emotion
                       (enumerate 1 (h_emotions history)) ;;
            ret (EmotionsHeader :: lines)
          else ret []) ;;
       let generation_lines :=
         if truthy_list (h_generations history) then
           GenerationsHeader
             :: map format_generation (enumerate 1 (h_generations history))
         else [] in
       emit (Reply (HistoryListing (emotion_lines ++ generation_lines))))
    (fun e =>
       emit (Logging_error e) ;;
       emit (Reply HistoryError)).

(** *** /health *)

Definition service_order : list Service := [emotion; poetry; database].

Definition Service_eqb (a b : Service) : bool :=
  match a, b with
  | emotion, emotion | poetry, poetry | database, database => true
  | _, _ => false
  end.

Definition Status_eqb (a b : Status) : bool :=
  match a, b with
  | checking, checking | success, success | error, error => true
  | _, _ => false
  end.

(** The [status] dictionary: its keys are the three service names from
    its creation on, so it is a total map on [Service]. *)
Definition StatusMap : Type := Service -> Status.

(** [{name: "checking" for name in service_order}] *)
Definition initial_status : StatusMap := fun _ => checking.

(** [status[name] = v] *)
Definition set_status (status : StatusMap) (name : Service) (v : Status)
  : StatusMap :=
  fun k => if Service_eqb k name then v else status k.

(** [status.values()] *)
Definition values (status : StatusMap) : list Status :=
  map status service_order.

(** One line of the status table. *)
Definition status_line (status : StatusMap) (name : Service)
  : Emoji * Service :=
  match status name with
  | checking => (HOURGLASS, name)
  | success => (CHECK_MARK, name)
  | error => (CROSSOUT, name)
  end.

(** [update_message]: the table of the current statuses replaces the text
    of the first reply. *)
Definition update_message (status : StatusMap) : M unit :=
  emit (Edit_text (HealthTable (map (status_line status) service_order))).

(** [timeout=10] *)
Definition PROBE_TIMEOUT : Q := 10 # 1.

(** [asyncio.wait_for(probe, timeout)]: the probe's own outcome when it
    settles before the timeout expires, [TimeoutError] otherwise; a probe
    that settles at the very moment the timeout expires is timed out. *)
Definition wait_for (p : Probe) (timeout : Q) : Outcome bool :=
  match p with
  | Settles after o => if Qle_bool timeout after then Raises TimeoutError else o
  | Hangs => Raises TimeoutError
  end.

(** [check_service(name, checker)], from the moment its probe settles or
    times out; it yields the updated [status]. *)
Definition check_service (env : Env) (status : StatusMap) (name : Service)
  : M StatusMap :=
  status' <-
    try_except
      (result <- call (Call_check_health name)
                      (wait_for (check_health env name) PROBE_TIMEOUT) ;;
       ret (set_status status name (if result then success else error)))
      (fun e =>
         let status' := set_status status name error in
         emit (Logging_error e) ;;
         ret status') ;;
  update_message status' ;;
  ret status'.

(** [l] with [x] put at position [k] (at the end when [k] is too large). *)
Definition insert_at {A} (k : nat) (x : A) (l : list A) : list A :=
  firstn k l ++ x :: skipn k l.

(** The order in which the tasks of [asyncio.gather] settle: any
    arrangement of the tasks, chosen by the event loop through [picks]. *)
Fixpoint completion_order {A} (picks : list nat) (tasks : list A) : list A :=
  match tasks with
  | [] => []
  | t :: rest =>
      insert_at (hd 0%nat picks) t (completion_order (tl picks) rest)
  end.

(** The tasks run to their end one after the other in the order they
    settle: a task does not yield between its probe's result and its
    rendering of the table. *)
Fixpoint run_tasks (env : Env) (order : list Service) (status : StatusMap)
  : M StatusMap :=
  match order with
  | [] => ret status
  | name :: rest =>
      status' <- check_service env status name ;;
      run_tasks env rest status'
  end.

(** [await asyncio.gather] over the [check_service] tasks of the three
    services. *)
Definition gather (env : Env) (picks : list nat) (status : StatusMap)
  : M StatusMap :=
  run_tasks env (completion_order picks service_order) status.

(** [all(v == "success" for v in status.values())] *)
Definition all_success (status : StatusMap) : bool :=
  forallb (fun v => Status_eqb v success) (values status).

(** The handler yields the final content of its local [status].  Its
    sends are outputs, as in the other handlers, so the [except] clause
    is entered here by the exceptions of the three handle lookups. *)
Definition cmd_health (env : Env) (picks : list nat) (message : Message)
  : M StatusMap :=
  emit (Reply HealthChecking) ;;
  let status := initial_status in
  try_except
    (emit (React THINK) ;;
     update_message status ;;
     _emotion <- call Call_get_emotion_api (get_emotion_api env) ;;
     _poetry <- call Call_get_poetry_api (get_poetry_api env) ;;
     _database <- call Call_get_database (get_database env) ;;
     status' <- gather env picks status ;;
     let final_emoji :=
       if all_success status' then THUMBS_UP else THUMBS_DOWN in
     emit (React final_emoji) ;;
     ret status')
    (fun e =>
       emit (Edit_text (HealthCritical e)) ;;
       emit (React WARNING) ;;
       ret status).

(** The status a service ends with, read off its probe. *)
Definition probe_status (env : Env) (name : Service) : Status :=
  match wait_for (check_health env name) PROBE_TIMEOUT with
  | Returns true => success
  | Returns false => error
  | Raises _ => error
  end.

(** The events of one task, from its probe's outcome on. *)
Definition task_events (env : Env) (status : StatusMap) (name : Service)
  : Trace :=
  match wait_for (check_health env name) PROBE_TIMEOUT with
  | Returns b =>
      [Call_check_health name (Returns b);
       Edit_text (HealthTable
                    (map (status_line
                            (set_status status name (probe_status env name)))
                         service_order))]
  | Raises e =>
      [Call_check_health name (Raises e);
       Logging_error e;
       Edit_text (HealthTable
                    (map (status_line
                            (set_status status name (probe_status env name)))
                         service_order))]
  end.

(** The probe does not settle within the timeout. *)
Definition exceeds_timeout (p : Probe) : Prop :=
  match p with
  | Settles after _ => (PROBE_TIMEOUT < after)%Q
  | Hangs => True
  end.

(** The probe ends with an exception. *)
Definition probe_raises (p : Probe) : Prop :=
  match p with
  | Settles _ (Raises _) => True
  | _ => False
  end.

(** The three handles of the global state are there, so that
    [cmd_health] launches its probes. *)
Definition services_available (env : Env) : Prop :=
  get_emotion_api env = Returns tt
  /\ get_poetry_api env = Returns tt
  /\ get_database env = Returns tt.

(** *** Reading a trace *)

(** A write to the history store. *)
Inductive Write : Type :=
| WEmotionRecord (user_id : Z) (e : Emotions)
| WGenerationRecord (user_id : Z) (request response : string).

(** The history writes of a trace, in order. *)
Fixpoint history_writes (t : Trace) : list Write :=
  match t with
  | [] => []
  | Call_log_emotion_analysis u e _ :: t' =>
      WEmotionRecord u e :: history_writes t'
  | Call_log_generation u rq rs _ :: t' =>
      WGenerationRecord u rq rs :: history_writes t'
  | _ :: t' => history_writes t'
  end.

Definition is_emotion_write (w : Write) : bool :=
  match w with WEmotionRecord _ _ => true | _ => false end.

Definition is_generation_write (w : Write) : bool :=
  match w with WGenerationRecord _ _ _ => true | _ => false end.

Definition emotion_writes (t : Trace) : nat :=
  List.length (filter is_emotion_write (history_writes t)).

Definition generation_writes (t : Trace) : nat :=
  List.length (filter is_generation_write (history_writes t)).

Definition is_emotion_call (ev : Event) : bool :=
  match ev with Call_analyze_emotions _ _ => true | _ => false end.

Definition is_poetry_call (ev : Event) : bool :=
  match ev with Call_generate_poem _ _ => true | _ => false end.

(** How many times a client was invoked. *)
Definition emotion_calls (t : Trace) : nat :=
  List.length (filter is_emotion_call t).

Definition poetry_calls (t : Trace) : nat :=
  List.length (filter is_poetry_call t).

(** The texts sent with [reply]. *)
Fixpoint replies (t : Trace) : list Notice :=
  match t with
  | [] => []
  | Reply n :: t' => n :: replies t'
  | _ :: t' => replies t'
  end.

(** The reactions set on the message. *)
Fixpoint reactions (t : Trace) : list Emoji :=
  match t with
  | [] => []
  | React e :: t' => e :: reactions t'
  | _ :: t' => reactions t'
  end.

(** The closing signal of [cmd_health]: the last reaction. *)
Definition closing_signal (t : Trace) : option Emoji :=
  last (map Some (reactions t)) None.

(** The critical notice of [cmd_health] was sent. *)
Definition critical (t : Trace) : Prop :=
  exists e, In (Edit_text (HealthCritical e)) t.

(** A command word or an argument: non-empty, without whitespace. *)
Definition is_word (w : string) : Prop :=
  w <> EmptyString /\ all_chars (fun c => negb (isspace c)) w = true.

(** Only whitespace, possibly nothing. *)
Definition is_blank (s : string) : Prop := all_chars isspace s = true.

End Commands.

(** ** Sample collaborators and messages *)

Module Scenario.

Import Py Commands.

Local Open Scope string_scope.

Definition happy_sad : Emotions := [("happy", 9 # 10); ("sad", 1 # 10)].

(** Everything works. *)
Definition all_up : Env := {|
  get_emotion_api := Returns tt;
  get_poetry_api := Returns tt;
  get_database := Returns tt;
  analyze_emotions := fun _ => Returns (Some {| emotions := happy_sad |});
  generate_poem := fun _ => Returns (Some {| poem := "Joy is pouring..." |});
  log_emotion_analysis := fun _ _ => Returns tt;
  log_generation := fun _ _ _ => Returns tt;
  get_user_history := fun _ _ =>
    Returns {| h_emotions := [{| er_performed_at := 1700000000;
                                 er_emotions := happy_sad |}];
               h_generations := [] |};
  check_health := fun _ => Settles (1 # 2) (Returns true)
|}.

(** The emotion client answers nothing. *)
Definition emotion_down : Env := {|
  get_emotion_api := Returns tt;
  get_poetry_api := Returns tt;
  get_database := Returns tt;
  analyze_emotions := fun _ => Returns None;
  generate_poem := generate_poem all_up;
  log_emotion_analysis := fun _ _ => Returns tt;
  log_generation := fun _ _ _ => Returns tt;
  get_user_history := get_user_history all_up;
  check_health := fun name =>
    match name with
    | emotion => Settles (1 # 2) (Returns false)
    | _ => Settles (1 # 2) (Returns true)
    end
|}.

(** The poetry client answers nothing and its probe takes 11 time units. *)
Definition poetry_down : Env := {|
  get_emotion_api := Returns tt;
  get_poetry_api := Returns tt;
  get_database := Returns tt;
  analyze_emotions := analyze_emotions all_up;
  generate_poem := fun _ => Returns None;
  log_emotion_analysis := fun _ _ => Returns tt;
  log_generation := fun _ _ _ => Returns tt;
  get_user_history := get_user_history all_up;
  check_health := fun name =>
    match name with
    | poetry => Settles (11 # 1) (Returns true)
    | _ => Settles (1 # 2) (Returns true)
    end
|}.

(** The database holds an analysis whose mapping is empty. *)
Definition empty_mapping_stored : Env := {|
  get_emotion_api := Returns tt;
  get_poetry_api := Returns tt;
  get_database := Returns tt;
  analyze_emotions := analyze_emotions all_up;
  generate_poem := generate_poem all_up;
  log_emotion_analysis := fun _ _ => Returns tt;
  log_generation := fun _ _ _ => Returns tt;
  get_user_history := fun _ _ =>
    Returns {| h_emotions := [{| er_performed_at := 1700000000;
                                 er_emotions := happy_sad |};
                              {| er_performed_at := 1700000600;
                                 er_emotions := [] |}];
               h_generations := [] |};
  check_health := check_health all_up
|}.

(** An analysis with two maximal scores: 9/10 and 18/20. *)
Definition tied_record : EmotionRecord :=
  {| er_performed_at := 1700000000;
     er_emotions := [("sad", 1 # 2); ("happy", 9 # 10); ("joy", 18 # 20)] |}.

Definition message_of (t : string) : Message :=
  {| from_user_id := 42; text := Some t |}.

End Scenario.

(** ** More ways to read a trace *)

Module Observations.

Import Py Commands.

(** The texts sent with [answer]. *)
Fixpoint answers (t : Trace) : list Notice :=
  match t with
  | [] => []
  | Answer n :: t' => n :: answers t'
  | _ :: t' => answers t'
  end.


(** What happened before the first event that satisfies [p]. *)
Fixpoint before_first (p : Event -> bool) (t : Trace) : Trace :=
  match t with
  | [] => []
  | ev :: t' => if p ev then [] else ev :: before_first p t'
  end.

(** The status tables [update_message] rendered, in order. *)
Fixpoint tables (t : Trace) : list (list (Emoji * Service)) :=
  match t with
  | [] => []
  | Edit_text (HealthTable rows) :: t' => rows :: tables t'
  | _ :: t' => tables t'
  end.

(** How many rows of a table still show the hourglass. *)
Definition pending (rows : list (Emoji * Service)) : nat :=
  List.length
    (filter (fun row => match fst row with HOURGLASS => true | _ => false end)
            rows).

Definition is_probe_of (name : Service) (ev : Event) : bool :=
  match ev with
  | Call_check_health k _ => Service_eqb k name
  | _ => false
  end.

(** How many times the health probe of [name] was awaited. *)
Definition probes_of (name : Service) (t : Trace) : nat :=
  List.length (filter (is_probe_of name) t).

Definition is_history_query (ev : Event) : bool :=
  match ev with Call_get_user_history _ _ _ => true | _ => false end.

(** The superscript digits U+00B2, U+00B3 and U+00B9, which
    [str.isdigit] accepts and [int] rejects. *)
Definition is_superscript (c : ascii) : bool :=
  let n := N_of_ascii c in
  ((n =? 178) || (n =? 179) || (n =? 185))%N.

(** Some character of [s] satisfies [p]. *)
Fixpoint any_char (p : ascii -> bool) (s : string) : bool :=
  match s with
  | EmptyString => false
  | String c s' => p c || any_char p s'
  end.

(** The last [n] events of a trace. *)
Definition last_events (n : nat) (t : Trace) : Trace :=
  rev (firstn n (rev t)).

(** The number of lines of a section of the listing of [cmd_history]:
    none without rows, else the header and one line for each row. *)
Definition section_size {A} (rows : list A) : nat :=
  match rows with [] => 0 | _ => S (List.length rows) end.

End Observations.

(** ** The handlers without orchestration: /start, /help, /about,
    /user_data *)

Module Chat.

Import Py Commands.

Local Open Scope string_scope.

(** [aiogram.types.BotCommand] *)
Record BotCommand : Type := {
  command : string;
  description : string
}.

(** The [Bot], as far as [cmd_help] uses it. *)
Record Bot : Type := {
  get_my_commands : Outcome (list BotCommand)
}.

(** The module-level variable [bot], [None] until [set_bot] is called. *)
Record Globals : Type := {
  bot : option Bot
}.

Definition initial_globals : Globals := {| bot := None |}.

Definition set_bot (new_bot : Bot) (g : Globals) : Globals :=
  {| bot := Some new_bot |}.

(** The values of [emotion_to_emoji]. *)
Inductive Face : Type :=
| Grin        (* happy *)
| Cry         (* sad *)
| Rage        (* anger *)
| Scream      (* fear *)
| MindBlown   (* surprise *)
| Vomit.      (* disgust *)

(** The texts these handlers send. *)
Inductive Sent : Type :=
| Hello                               (* "Hello!" *)
| HelpText (lines : string)
| AboutText (about_text : string)
| AboutUnavailable      (* "Информация о боте временно недоступна" *)
| UserData (user : Z) (emotion_dict : Emotions) (face : Face)
    (prevailing_emotion : string).

(** What [message.react] does in [cmd_user_data], whose [except] clause
    tells [TelegramBadRequest] from the other exceptions. *)
Inductive ReactResult : Type :=
| Reacted
| TelegramBadRequest
| ReactRaised (e : exn).

(** What [ABOUT_FILE.read_text] does. *)
Inductive ReadResult : Type :=
| FileText (about_text : string)
| FileNotFoundError
| ReadRaised (e : exn).

Inductive Effect : Type :=
| Do_get_database (o : Outcome unit)
| Do_add_user (user_id : Z) (o : Outcome unit)
| Do_get_my_commands (o : Outcome (list BotCommand))
| Do_read_text (r : ReadResult)
| Do_react (face : Face) (r : ReactResult)
| Do_answer (s : Sent)
| Do_reply (s : Sent).

(** The collaborators of these handlers.  [random n] is what the [n]-th
    call of [random()] in a run returns. *)
Record World : Type := {
  w_get_database : Outcome unit;
  add_user : Z -> Outcome unit;
  read_text : ReadResult;
  random : nat -> Q;
  react : Face -> ReactResult
}.

(** A trace of effects and an outcome, as [Commands.M]. *)
Definition P (A : Type) : Type := (list Effect * Outcome A)%type.

Definition pure {A} (a : A) : P A := ([], Returns a).

Definition then_ {A B} (m : P A) (f : A -> P B) : P B :=
  match m with
  | (t, Returns a) => let (t', r) := f a in ((t ++ t')%list, r)
  | (t, Raises e) => (t, Raises e)
  end.

Definition effect (ef : Effect) : P unit := ([ef], Returns tt).

Definition invoke {A} (ef : Outcome A -> Effect) (o : Outcome A) : P A :=
  ([ef o], o).

Definition compute {A} (o : Outcome A) : P A := ([], o).

Declare Scope chat_scope.
Delimit Scope chat_scope with chat.
Notation "x <- c ;; k" := (then_ c (fun x => k))
  (at level 61, c at next level, right associativity) : chat_scope.
Notation "c ;; k" := (then_ c (fun _ => k))
  (at level 61, right associativity) : chat_scope.
Local Open Scope chat_scope.

(** *** /start *)

Definition cmd_start (w : World) (message : Message) : P unit :=
  _database <- invoke Do_get_database (w_get_database w) ;;
  invoke (Do_add_user (from_user_id message))
         (add_user w (from_user_id message)) ;;
  effect (Do_answer Hello).

(** *** /help *)

(** [sep.join(l)] *)
Fixpoint join (sep : string) (l : list string) : string :=
  match l with
  | [] => ""
  | [s] => s
  | s :: l' => s ++ sep ++ join sep l'
  end.

Definition newline : string := String (ascii_of_N 10) "".

(** [f'/{cmd.command}: {cmd.description}'] *)
Definition format_command (cmd : BotCommand) : string :=
  "/" ++ command cmd ++ ": " ++ description cmd.

Definition cmd_help (g : Globals) (message : Message) : P unit :=
  match bot g with
  | None => compute (Raises AttributeError)
  | Some the_bot =>
      command_list <- invoke Do_get_my_commands (get_my_commands the_bot) ;;
      let command_list_formatted :=
        join newline (map format_command command_list) in
      effect (Do_answer (HelpText command_list_formatted))
  end.

(** *** /about *)

Definition cmd_about (w : World) (message : Message) : P unit :=
  match read_text w with
  | FileText about_text =>
      effect (Do_read_text (FileText about_text)) ;;
      effect (Do_reply (AboutText about_text))
  | FileNotFoundError =>
      effect (Do_read_text FileNotFoundError) ;;
      effect (Do_reply AboutUnavailable)
  | ReadRaised e =>
      effect (Do_read_text (ReadRaised e)) ;;
      compute (Raises e)
  end.

(** *** /user_data *)

(** [emotion_dict]: six draws of [random()], in the order of the dict
    display. *)
Definition emotion_dict (w : World) : Emotions :=
  [("happy", random w 0); ("sad", random w 1); ("anger", random w 2);
   ("fear", random w 3); ("surprise", random w 4); ("disgust", random w 5)].

(** [d.get(k)] *)
Fixpoint dict_get (d : Emotions) (k : string) : option Q :=
  match d with
  | [] => None
  | (k', v) :: d' => if String.eqb k' k then Some v else dict_get d' k
  end.

(** The key [emotion_dict.get] of [max], on the keys of the dict (where
    [get] never yields [None]). *)
Definition score_in (d : Emotions) (k : string) : Q :=
  match dict_get d k with
  | Some v => v
  | None => 0
  end.

(** [max(emotion_dict, key=emotion_dict.get)]: the iteration is over the
    keys. *)
Definition prevailing_emotion (w : World) : Outcome string :=
  max_by (score_in (emotion_dict w)) (map fst (emotion_dict w)).

(** [emotion_to_emoji[k]] *)
Definition emotion_to_emoji (k : string) : Outcome Face :=
  if String.eqb k "happy" then Returns Grin
  else if String.eqb k "sad" then Returns Cry
  else if String.eqb k "anger" then Returns Rage
  else if String.eqb k "fear" then Returns Scream
  else if String.eqb k "surprise" then Returns MindBlown
  else if String.eqb k "disgust" then Returns Vomit
  else Raises KeyError.

Definition cmd_user_data (w : World) (message : Message) : P unit :=
  prevailing <- compute (prevailing_emotion w) ;;
  (face <- compute (emotion_to_emoji prevailing) ;;
   match react w face with
   | Reacted => effect (Do_react face Reacted)
   | TelegramBadRequest => effect (Do_react face TelegramBadRequest)
   | ReactRaised e =>
       effect (Do_react face (ReactRaised e)) ;; compute (Raises e)
   end) ;;
  face <- compute (emotion_to_emoji prevailing) ;;
  effect (Do_answer (UserData (from_user_id message) (emotion_dict w)
                       face prevailing)).

(** The texts sent, with [answer] or [reply]. *)
Fixpoint sent (t : list Effect) : list Sent :=
  match t with
  | [] => []
  | Do_answer s :: t' => s :: sent t'
  | Do_reply s :: t' => s :: sent t'
  | _ :: t' => sent t'
  end.

End Chat.

(** ** More sample collaborators *)

Module MoreScenarios.

Import Py Commands Chat.

Local Open Scope string_scope.

(** The database holds two analyses and one generation. *)
Definition stored_history : History :=
  {| h_emotions := [{| er_performed_at := 1700000000;
                       er_emotions := Scenario.happy_sad |};
                    Scenario.tied_record];
     h_generations := [{| gr_performed_at := 1700000300;
                          request_text := "very happy";
                          response_text := "Joy is pouring..." |}] |}.

Definition with_history (history : History) : Env := {|
  get_emotion_api := Returns tt;
  get_poetry_api := Returns tt;
  get_database := Returns tt;
  analyze_emotions := analyze_emotions Scenario.all_up;
  generate_poem := generate_poem Scenario.all_up;
  log_emotion_analysis := fun _ _ => Returns tt;
  log_generation := fun _ _ _ => Returns tt;
  get_user_history := fun _ _ => Returns history;
  check_health := check_health Scenario.all_up
|}.

Definition no_history : History := {| h_emotions := []; h_generations := [] |}.

(** The lookup of the database handle raises. *)
Definition database_down : Env := {|
  get_emotion_api := Returns tt;
  get_poetry_api := Returns tt;
  get_database := Raises (Failure 1);
  analyze_emotions := analyze_emotions Scenario.all_up;
  generate_poem := generate_poem Scenario.all_up;
  log_emotion_analysis := fun _ _ => Returns tt;
  log_generation := fun _ _ _ => Returns tt;
  get_user_history := get_user_history Scenario.all_up;
  check_health := check_health Scenario.all_up
|}.

(** "/history" followed by a superscript two. *)
Definition history_superscript : Message :=
  Scenario.message_of ("/history " ++ String (ascii_of_N 178) "").

End MoreScenarios.

(** ** The built-ins on sample texts *)

Import Py Commands.

Section BuiltinExamples.

Local Open Scope string_scope.

Example split_maxsplit1_text :
  split_maxsplit1 "/generate  very happy  " = ["/generate"; "very happy  "].
Proof. reflexivity. Qed.

Example split_maxsplit1_command :
  split_maxsplit1 "/generate   " = ["/generate"].
Proof. reflexivity. Qed.

Example split_maxsplit1_nothing : split_maxsplit1 "   " = [].
Proof. reflexivity. Qed.

Example split_words : split " /history  7 x " = ["/history"; "7"; "x"].
Proof. reflexivity. Qed.

Example isdigit_minus : isdigit "-3" = false.
Proof. reflexivity. Qed.

Example int_100 : int "100" = Returns 100%Z.
Proof. reflexivity. Qed.

(** A superscript two is a digit for [isdigit] and not a number for
    [int]: the limit of /history then ends in the handler's [except]. *)
Example parse_limit_superscript :
  isdigit (String (ascii_of_N 178) "") = true
  /\ parse_limit [String (ascii_of_N 178) ""] = Raises ValueError.
Proof. split; reflexivity. Qed.

Example parse_limit_word : parse_limit ["all"] = Returns 5%Z.
Proof. reflexivity. Qed.

Example completion_order_sample :
  completion_order [5; 1; 0]%nat service_order = [database; poetry; emotion].
Proof. reflexivity. Qed.

End BuiltinExamples.

(** ** Properties of /generate and /emotions *)

(** Case analysis of a trace-membership hypothesis on a computed trace. *)
Ltac split_in H :=
  cbn in H;
  repeat match type of H with
         | _ \/ _ => destruct H as [H | H]
         end;
  try discriminate H; try contradiction.

(** One branching point of a handler: the next collaborator outcome the
    goal inspects. *)
Ltac next_outcome env :=
  match goal with
  | |- context [get_emotion_api env] =>
      destruct (get_emotion_api env) as [[] | ?]
  | |- context [get_poetry_api env] =>
      destruct (get_poetry_api env) as [[] | ?]
  | |- context [get_database env] =>
      destruct (get_database env) as [[] | ?]
  | |- context [analyze_emotions env ?r] =>
      destruct (analyze_emotions env r) as [[? | ] | ?] eqn:?
  | |- context [log_emotion_analysis env ?u ?e] =>
      destruct (log_emotion_analysis env u e) as [[] | ?]
  | |- context [generate_poem env ?r] =>
      destruct (generate_poem env r) as [[? | ] | ?] eqn:?
  | |- context [log_generation env ?u ?a ?b] =>
      destruct (log_generation env u a b) as [[] | ?]
  end; cbn.

(** All the runs of a handler whose command text was read. *)
Ltac all_runs env := repeat next_outcome env.

Section Generate.

Variable env : Env.
Variable message : Message.

Let run := cmd_format env message.

(** C1.  In a run of the poem-generation handler in which the call to the
    emotion service returns an empty response, the handler replies
    "emotion service unavailable" (and nothing else) and returns; the
    poetry client is never invoked and no history record is written. *)
Theorem cmd_format_emotion_unavailable :
  forall request : EmotionAnalyzeRequestDto,
    In (Call_analyze_emotions request (Returns None)) (trace run) ->
    replies (trace run) = [EmotionServiceUnavailable]
    /\ outcome run = Returns tt
    /\ poetry_calls (trace run) = 0%nat
    /\ history_writes (trace run) = [].
Proof.
  intros request. subst run. unfold cmd_format.
  destruct (command_text message) as [t | ?]; cbn;
    [destruct (truthy_str t); cbn |];
    all_runs env; intros H; split_in H; repeat split.
Qed.

(** C2.  In a run of the poem-generation handler in which the emotion
    service returns a response and the poetry service returns a poem, the
    history writes are exactly two: first the EmotionRecord with the
    emotions of the response, then the GenerationRecord with the text of
    the request and the poem. *)
Theorem cmd_format_success_writes :
  forall (request : EmotionAnalyzeRequestDto)
         (response : EmotionAnalyzeResponseDto)
         (poetry_request : PoetryGenerationRequestDto)
         (poetry_response : PoetryGenerationResponseDto),
    In (Call_analyze_emotions request (Returns (Some response))) (trace run) ->
    In (Call_generate_poem poetry_request (Returns (Some poetry_response)))
       (trace run) ->
    history_writes (trace run)
    = [WEmotionRecord (from_user_id message) (emotions response);
       WGenerationRecord (from_user_id message) (ea_message request)
         (poem poetry_response)]
    /\ emotion_writes (trace run) = 1%nat
    /\ generation_writes (trace run) = 1%nat.
Proof.
  intros request response poetry_request poetry_response. subst run.
  unfold cmd_format.
  destruct (command_text message) as [t | ?]; cbn;
    [destruct (truthy_str t); cbn |];
    all_runs env; intros H1 H2; split_in H1; split_in H2;
    injection H1 as <- <-; injection H2 as <- <-; repeat split.
Qed.

(** C3.  In a run of the poem-generation handler in which the emotion
    service returns a response and the poetry service returns an empty
    response, the handler replies "poetry service unavailable" and
    returns; no GenerationRecord is written, and the EmotionRecord whose
    write completed before the poetry call is the only history write. *)
Theorem cmd_format_poetry_unavailable :
  forall (request : EmotionAnalyzeRequestDto)
         (response : EmotionAnalyzeResponseDto)
         (poetry_request : PoetryGenerationRequestDto),
    In (Call_analyze_emotions request (Returns (Some response))) (trace run) ->
    In (Call_generate_poem poetry_request (Returns None)) (trace run) ->
    replies (trace run) = [PoetryServiceUnavailable]
    /\ outcome run = Returns tt
    /\ generation_writes (trace run) = 0%nat
    /\ history_writes (trace run)
       = [WEmotionRecord (from_user_id message) (emotions response)]
    /\ In (Call_log_emotion_analysis (from_user_id message)
             (emotions response) (Returns tt)) (trace run).
Proof.
  intros request response poetry_request. subst run. unfold cmd_format.
  destruct (command_text message) as [t | ?]; cbn;
    [destruct (truthy_str t); cbn |];
    all_runs env; intros H1 H2; split_in H1; split_in H2;
    injection H1 as <- <-; repeat split; auto 10.
Qed.

End Generate.

(** ** The text after the command *)

Section CommandText.

Local Open Scope string_scope.

Lemma lstrip_blank (b : string) : is_blank b -> lstrip b = "".
Proof.
  unfold is_blank. induction b as [| c b IH]; cbn; [reflexivity |].
  intros H. apply andb_prop in H as [Hc Hb]. rewrite Hc. now apply IH.
Qed.

Lemma span_word_blank (w b : string) :
  all_chars (fun c => negb (isspace c)) w = true ->
  is_blank b ->
  span_word (w ++ b) = (w, b).
Proof.
  intros Hw Hb. induction w as [| c w IH]; cbn in *.
  - destruct b as [| c b]; cbn in *; [reflexivity |].
    apply andb_prop in Hb as [Hc _]. now rewrite Hc.
  - apply andb_prop in Hw as [Hc Hw].
    apply negb_true_iff in Hc. rewrite Hc, (IH Hw). reflexivity.
Qed.

Lemma lstrip_word (w s : string) : is_word w -> lstrip (w ++ s) = w ++ s.
Proof.
  intros [Hne Hw]. destruct w as [| c w]; [congruence |]. cbn in *.
  apply andb_prop in Hw as [Hc _]. apply negb_true_iff in Hc.
  now rewrite Hc.
Qed.

(** A command followed by nothing but whitespace splits into the command
    alone. *)
Lemma split_maxsplit1_command_only (w b : string) :
  is_word w -> is_blank b -> split_maxsplit1 (w ++ b) = [w].
Proof.
  intros Hw Hb. unfold split_maxsplit1. rewrite (lstrip_word b Hw).
  destruct Hw as [Hne Hw].
  destruct w as [| c w]; [congruence |].
  change (match String c w ++ b with
          | "" => []
          | String _ _ =>
              let (w0, r) := span_word (String c w ++ b) in
              match lstrip r with
              | "" => [w0]
              | String a r1 => [w0; String a r1]
              end
          end = [String c w]).
  cbn [append]. change (String c (w ++ b)) with (String c w ++ b).
  rewrite (span_word_blank _ Hw Hb), (lstrip_blank Hb). reflexivity.
Qed.

Lemma command_text_command_only (message : Message) (w b : string) :
  text message = Some (w ++ b) -> is_word w -> is_blank b ->
  command_text message = Returns "".
Proof.
  intros Ht Hw Hb. unfold command_text.
  now rewrite Ht, (split_maxsplit1_command_only Hw Hb).
Qed.

(** C7.  When the message is the command followed by nothing or by
    whitespace only, both the emotion-analysis handler and the
    poem-generation handler reply with their usage notice ("write the text
    after the command") and do nothing else: no client or database is
    called and nothing is written to the history. *)
Theorem missing_text_short_circuits :
  forall (env : Env) (message : Message) (command blank : string),
    text message = Some (command ++ blank) ->
    is_word command ->
    is_blank blank ->
    cmd_emotions env message = ([Reply EmotionsUsage], Returns tt)
    /\ cmd_format env message = ([Reply GenerateUsage], Returns tt)
    /\ emotion_calls (trace (cmd_emotions env message)) = 0%nat
    /\ emotion_calls (trace (cmd_format env message)) = 0%nat
    /\ poetry_calls (trace (cmd_format env message)) = 0%nat
    /\ history_writes (trace (cmd_emotions env message)) = []
    /\ history_writes (trace (cmd_format env message)) = [].
Proof.
  intros env message command blank Ht Hw Hb.
  pose proof (command_text_command_only message Ht Hw Hb) as E.
  unfold cmd_emotions, cmd_format. rewrite E. cbn. repeat split.
Qed.

End CommandText.

Section Emotions.

Variable env : Env.
Variable message : Message.

Let run := cmd_emotions env message.

(** C8, as the code has it.  History writes of the emotion-analysis
    handler.  When the emotion service returns a response and the lookup
    of the database handle that follows returns, exactly one record is
    written, the EmotionRecord of that response; when that lookup raises,
    nothing is written and the generic error reply is sent.  When the
    service returns an empty response or raises, or when the message
    carries no text after the command, nothing is written. *)
Theorem cmd_emotions_history_writes :
  (forall request response,
      In (Call_analyze_emotions request (Returns (Some response)))
         (trace run) ->
      get_database env = Returns tt ->
      history_writes (trace run)
      = [WEmotionRecord (from_user_id message) (emotions response)]
      /\ emotion_writes (trace run) = 1%nat
      /\ generation_writes (trace run) = 0%nat)
  /\ (forall request,
         In (Call_analyze_emotions request (Returns None)) (trace run) ->
         history_writes (trace run) = []
         /\ replies (trace run) = [EmotionServiceUnavailable])
  /\ (forall request e,
         In (Call_analyze_emotions request (Raises e)) (trace run) ->
         history_writes (trace run) = [])
  /\ ((forall t, command_text message = Returns t -> truthy_str t = false) ->
      history_writes (trace run) = []
      /\ emotion_calls (trace run) = 0%nat)
  /\ (forall request response e,
         In (Call_analyze_emotions request (Returns (Some response)))
            (trace run) ->
         get_database env = Raises e ->
         history_writes (trace run) = []
         /\ replies (trace run) = [EmotionAnalysisError]).
Proof.
  subst run. unfold cmd_emotions.
  split; [| split; [| split; [| split]]].
  - intros request response.
    destruct (command_text message) as [t | ?]; cbn;
      [destruct (truthy_str t); cbn |];
      all_runs env; intros H Hdb; split_in H; try discriminate Hdb.
    all: injection H as <- <-; repeat split.
  - intros request.
    destruct (command_text message) as [t | ?]; cbn;
      [destruct (truthy_str t); cbn |];
      all_runs env; intros H; split_in H; repeat split.
  - intros request e.
    destruct (command_text message) as [t | ?]; cbn;
      [destruct (truthy_str t); cbn |];
      all_runs env; intros H; split_in H; reflexivity.
  - destruct (command_text message) as [t | ?]; cbn;
      [destruct (truthy_str t) eqn:Et; cbn |]; intros H.
    + specialize (H t eq_refl). congruence.
    + split; reflexivity.
    + split; reflexivity.
  - intros request response e.
    destruct (command_text message) as [t | ?]; cbn;
      [destruct (truthy_str t); cbn |];
      all_runs env; intros H Hdb; split_in H; try discriminate Hdb;
      repeat split.
Qed.

End Emotions.

(** ** The limit of /history *)

Section HistoryLimit.

Local Open Scope string_scope.
Local Open Scope Z_scope.

Lemma isdecimal_isdigit_char (c : ascii) :
  isdecimal c = true -> isdigit_char c = true.
Proof. unfold isdigit_char. now intros ->. Qed.

Lemma all_decimal_isdigit (a : string) :
  a <> "" -> all_chars isdecimal a = true -> isdigit a = true.
Proof.
  intros Hne H. destruct a as [| c a]; [congruence |].
  unfold isdigit. revert H. generalize (String c a). clear.
  induction s as [| c s IH]; cbn; [reflexivity |].
  intros H. apply andb_prop in H as [Hc Hs].
  now rewrite (isdecimal_isdigit_char _ Hc), IH.
Qed.

Lemma isdecimal_value (c : ascii) :
  isdecimal c = true -> 0 <= Z.of_N (N_of_ascii c) - 48 <= 9.
Proof.
  unfold isdecimal. intros H. apply andb_prop in H as [H1 H2].
  apply N.leb_le in H1, H2. lia.
Qed.

(** [int] reads a string of decimal digits as a natural number. *)
Lemma int_from_decimal (s : string) :
  forall acc, 0 <= acc -> all_chars isdecimal s = true ->
              exists n, acc <= n /\ int_from acc s = Returns n.
Proof.
  induction s as [| c s IH]; cbn; intros acc Hacc H.
  - exists acc. split; [lia | reflexivity].
  - apply andb_prop in H as [Hc Hs]. rewrite Hc.
    pose proof (isdecimal_value _ Hc) as Hv.
    destruct (IH (10 * acc + (Z.of_N (N_of_ascii c) - 48))) as (n & Hn & E);
      [lia | exact Hs |].
    exists n. split; [lia | exact E].
Qed.

Lemma int_from_nonneg (s : string) :
  forall acc n, 0 <= acc -> int_from acc s = Returns n -> 0 <= n.
Proof.
  induction s as [| c s IH]; cbn; intros acc n Hacc H.
  - injection H as <-. exact Hacc.
  - destruct (isdecimal c) eqn:Hc; [| discriminate H].
    pose proof (isdecimal_value _ Hc) as Hv.
    apply (IH (10 * acc + (Z.of_N (N_of_ascii c) - 48)) n); [lia | exact H].
Qed.

Lemma int_nonneg (s : string) (n : Z) : int s = Returns n -> 0 <= n.
Proof.
  destruct s as [| c s]; [discriminate |].
  unfold int. apply int_from_nonneg. lia.
Qed.

Lemma parse_limit_range (args : list string) (n : Z) :
  parse_limit args = Returns n -> 0 <= n <= MAX_LIMIT.
Proof.
  unfold parse_limit, MAX_LIMIT, DEFAULT_LIMIT.
  destruct args as [| a rest]; [intros [= <-]; lia |].
  destruct (isdigit a); [| intros [= <-]; lia].
  destruct (int a) as [k | e] eqn:E; [| discriminate].
  intros [= <-]. apply int_nonneg in E. lia.
Qed.

(** C6, as the code has it.  With [args] the words after the command:
    no argument, or a first argument that is not a digit string (a word,
    a number with a minus sign), gives the default 5; a first argument of
    decimal digits with value [n] gives [min n 20], so 100 gives 20, 7
    gives 7 and 0 gives 0; a limit, when one is computed, lies between 0
    and 20. *)
Theorem history_limit_amended :
  forall (message : Message) (args : list string),
    history_args message = Returns args ->
    (args = [] -> history_limit message = Returns DEFAULT_LIMIT)
    /\ (forall a rest, args = a :: rest -> isdigit a = false ->
                       history_limit message = Returns DEFAULT_LIMIT)
    /\ (forall a rest, args = String "-" a :: rest ->
                       history_limit message = Returns DEFAULT_LIMIT)
    /\ (forall a rest, args = a :: rest -> a <> "" ->
                       all_chars isdecimal a = true ->
                       exists n, 0 <= n /\ int a = Returns n
                                 /\ history_limit message
                                    = Returns (Z.min n MAX_LIMIT))
    /\ (forall n, history_limit message = Returns n -> 0 <= n <= MAX_LIMIT)
    /\ parse_limit ["100"] = Returns 20
    /\ parse_limit ["7"] = Returns 7
    /\ parse_limit ["0"] = Returns 0.
Proof.
  intros message args Hargs. unfold history_limit. rewrite Hargs.
  repeat split.
  - intros ->. reflexivity.
  - intros a rest -> Ha. cbn. now rewrite Ha.
  - intros a rest ->. reflexivity.
  - intros a rest -> Hne Ha. cbn.
    rewrite (all_decimal_isdigit Hne Ha).
    destruct a as [| c a]; [congruence |].
    destruct (int_from_decimal (String c a) (acc := 0) ltac:(lia) Ha)
      as (n & Hn & E).
    exists n. unfold int. rewrite E. repeat split. exact Hn.
  - apply parse_limit_range in H. apply H.
  - apply parse_limit_range in H. apply H.
Qed.

(** C6, the claim as stated fails: for "/history 0" the limit is 0, which
    is neither the default 5 nor in the range 5..20, and 0 is what the
    database is asked for. *)
Lemma history_limit_zero_counterexample :
  history_limit (Scenario.message_of "/history 0") = Returns 0
  /\ ~ (exists n, history_limit (Scenario.message_of "/history 0") = Returns n
                  /\ DEFAULT_LIMIT <= n <= MAX_LIMIT)
  /\ In (Call_get_user_history 42 0
           (get_user_history Scenario.all_up 42 0))
        (trace (cmd_history Scenario.all_up
                  (Scenario.message_of "/history 0"))).
Proof.
  split; [reflexivity | split].
  - intros (n & E & Hn). vm_compute in E. injection E as <-.
    unfold DEFAULT_LIMIT in Hn. lia.
  - vm_compute. auto.
Qed.

Lemma history_limit_amended_witness :
  history_args (Scenario.message_of "/history 100") = Returns ["100"]
  /\ history_limit (Scenario.message_of "/history 100") = Returns 20.
Proof.
  split; [reflexivity |].
  destruct (history_limit_amended (Scenario.message_of "/history 100")
              (args := ["100"]) eq_refl)
    as (_ & _ & _ & H & _).
  destruct (H "100" [] eq_refl ltac:(discriminate) eq_refl) as (n & _ & E & L).
  vm_compute in E. injection E as <-. exact L.
Defined.

End HistoryLimit.

(** ** The prevailing emotion *)

Section Maximum.

Context {A : Type} (key : A -> Q).

Local Open Scope Q_scope.

Lemma Qgt_bool_true (a b : Q) : Qgt_bool a b = true -> b < a.
Proof.
  unfold Qgt_bool. intros H. apply negb_true_iff in H.
  apply Qnot_le_lt. intros Hle. apply Qle_bool_iff in Hle. congruence.
Qed.

Lemma Qgt_bool_false (a b : Q) : Qgt_bool a b = false -> a <= b.
Proof.
  unfold Qgt_bool. intros H. apply negb_false_iff in H.
  now apply Qle_bool_iff.
Qed.

(** The loop of [max]: [best] is the first maximal item of what was read
    ([before], [best], [mid]), and stays so when [rest] has been read. *)
Lemma fold_max_first_maximal (rest : list A) :
  forall (before : list A) (best : A) (mid : list A),
    (forall x, In x before -> key x < key best) ->
    (forall x, In x mid -> key x <= key best) ->
    exists before' after',
      before ++ best :: mid ++ rest
      = before' ++ fold_left (max_step key) rest best :: after'
      /\ (forall x, In x before' ->
                    key x < key (fold_left (max_step key) rest best))
      /\ (forall x, In x after' ->
                    key x <= key (fold_left (max_step key) rest best)).
Proof.
  induction rest as [| y rest IH]; intros before best mid Hb Hm; cbn.
  - exists before, mid. rewrite app_nil_r. auto.
  - unfold max_step at 2 4 6. destruct (Qgt_bool (key y) (key best)) eqn:E.
    + apply Qgt_bool_true in E.
      destruct (IH (before ++ best :: mid) y (@nil A)) as (b' & a' & Heq & H1 & H2).
      * intros x Hx. apply in_app_or in Hx as [Hx | [<- | Hx]].
        -- apply Qlt_trans with (key best); auto.
        -- exact E.
        -- apply Qle_lt_trans with (key best); auto.
      * intros x [].
      * exists b', a'. split; [| auto].
        rewrite <- Heq. rewrite <- app_assoc. reflexivity.
    + apply Qgt_bool_false in E.
      destruct (IH before best (mid ++ [y])) as (b' & a' & Heq & H1 & H2).
      * exact Hb.
      * intros x Hx. apply in_app_or in Hx as [Hx | [<- | []]]; auto.
      * exists b', a'. split; [| auto].
        rewrite <- Heq. rewrite <- app_assoc. reflexivity.
Qed.

Lemma max_by_first_maximal (items : list A) :
  items <> [] ->
  exists best before after,
    max_by key items = Returns best
    /\ items = before ++ best :: after
    /\ (forall x, In x before -> key x < key best)
    /\ (forall x, In x after -> key x <= key best).
Proof.
  destruct items as [| first rest]; [congruence |]. intros _.
  destruct (@fold_max_first_maximal rest [] first [])
    as (b & a & Heq & H1 & H2); [intros x [] | intros x [] |].
  exists (fold_left (max_step key) rest first), b, a.
  cbn in Heq. auto.
Qed.

Lemma max_by_empty : max_by key [] = Raises ValueError.
Proof. reflexivity. Qed.

End Maximum.

(** C9.  For a record whose emotions mapping is not empty, the prevailing
    emotion is an entry of the mapping whose score is maximal, and the
    first such entry in the iteration order: every entry before it has a
    strictly smaller score, every entry after it a smaller or equal
    one. *)
Theorem top_emotion_first_maximal :
  forall record : EmotionRecord,
    er_emotions record <> [] ->
    exists label score before after,
      top_emotion record = Returns (label, score)
      /\ er_emotions record = before ++ (label, score) :: after
      /\ (forall x, In x before -> (snd x < score)%Q)
      /\ (forall x, In x after -> (snd x <= score)%Q).
Proof.
  intros record Hne.
  destruct (max_by_first_maximal snd Hne)
    as ([label score] & before & after & E & Hitems & Hb & Ha).
  exists label, score, before, after. auto.
Qed.

Lemma top_emotion_first_maximal_witness :
  er_emotions Scenario.tied_record <> []
  /\ exists label score before after,
      top_emotion Scenario.tied_record = Returns (label, score)
      /\ er_emotions Scenario.tied_record = before ++ (label, score) :: after
      /\ (forall x, In x before -> (snd x < score)%Q)
      /\ (forall x, In x after -> (snd x <= score)%Q).
Proof.
  split; [discriminate |].
  apply top_emotion_first_maximal. discriminate.
Defined.

(** On a tie the entry met first wins. *)
Example top_emotion_tie :
  top_emotion Scenario.tied_record = Returns ("happy"%string, 9 # 10).
Proof. reflexivity. Qed.

(** ** An empty mapping in the history *)

Section TraceFacts.

Lemma replies_app (t1 t2 : Trace) :
  replies (t1 ++ t2) = replies t1 ++ replies t2.
Proof.
  induction t1 as [| ev t1 IH]; [reflexivity |].
  destruct ev; cbn; rewrite IH; reflexivity.
Qed.

Lemma reactions_app (t1 t2 : Trace) :
  reactions (t1 ++ t2) = reactions t1 ++ reactions t2.
Proof.
  induction t1 as [| ev t1 IH]; [reflexivity |].
  destruct ev; cbn; rewrite IH; reflexivity.
Qed.

End TraceFacts.

Section EmptyMapping.

(** The loop over the analyses stops with [ValueError] at the first
    record whose mapping is empty, having sent nothing. *)
Lemma for_each_format_emotion_empty (records : list EmotionRecord) :
  forall (start : nat) (record : EmotionRecord),
    In record records ->
    er_emotions record = [] ->
    exists t,
      for_each format_emotion (enumerate start records)
      = (t, Raises ValueError)
      /\ (forall ev, In ev t -> ev = Print).
Proof.
  induction records as [| r records IH]; intros start record Hin Hempty.
  - destruct Hin.
  - cbn [enumerate for_each]. unfold format_emotion at 1.
    unfold top_emotion, max_by.
    destruct (er_emotions r) as [| first rest] eqn:Er.
    + exists [Print]. split; [reflexivity |].
      intros ev [<- | []]. reflexivity.
    + destruct Hin as [-> | Hin]; [congruence |].
      destruct (IH (S start) record Hin Hempty) as (t & E & Ht).
      exists (Print :: t). cbn. rewrite E. cbn. split; [reflexivity |].
      intros ev [<- | Hev]; [reflexivity | auto].
Qed.

Lemma only_prints_no_replies (t : Trace) :
  (forall ev, In ev t -> ev = Print) -> replies t = [].
Proof.
  induction t as [| ev t IH]; [reflexivity |].
  intros H. rewrite (H ev (or_introl eq_refl)). cbn.
  apply IH. intros ev' Hev'. apply H. now right.
Qed.

Lemma for_each_format_emotion_prints (records : list EmotionRecord) :
  forall (start : nat) (ev : Event),
    In ev (trace (for_each format_emotion (enumerate start records))) ->
    ev = Print.
Proof.
  induction records as [| r records IH]; intros start ev; cbn.
  - intros [].
  - destruct (top_emotion r) as [top | ?]; cbn.
    + specialize (IH (S start) ev).
      destruct (for_each format_emotion (enumerate (S start) records))
        as [t [lines | ?]]; cbn in *.
      * rewrite app_nil_r. intros [<- | H]; [reflexivity | auto].
      * intros [<- | H]; [reflexivity | auto].
    + intros [<- | []]. reflexivity.
Qed.

Variable env : Env.
Variable message : Message.

Let run := cmd_history env message.

(** The query recorded in the trace is the one the handler made. *)
Lemma cmd_history_query (limit : Z) (history : History) :
  In (Call_get_user_history (from_user_id message) limit (Returns history))
     (trace run) ->
  history_limit message = Returns limit
  /\ get_database env = Returns tt
  /\ get_user_history env (from_user_id message) limit = Returns history.
Proof.
  subst run. unfold cmd_history.
  destruct (history_limit message) as [n | ?]; cbn;
    [| intros H; split_in H].
  destruct (get_database env) as [[] | ?]; cbn; [| intros H; split_in H].
  destruct (get_user_history env (from_user_id message) n) as [h | ?] eqn:Eh;
    cbn; [| intros H; split_in H].
  pose proof (@for_each_format_emotion_prints (h_emotions h) 1) as Hp.
  destruct (h_emotions h) as [| r rs]; cbn [truthy_list negb andb].
  - destruct (h_generations h); cbn; intros H; split_in H;
      injection H as <- <-; rewrite <- Eh; auto.
  - destruct (for_each format_emotion (enumerate 1 (r :: rs)))
      as [t [lines | ?]]; cbn in *; intros [H | [H | H]];
      try discriminate H;
      try (injection H as <- <-; rewrite <- Eh; now auto);
      repeat match type of H with
             | In _ (_ ++ _) => apply in_app_or in H as [H | H]
             end;
      try (apply Hp in H; discriminate H); split_in H.
Qed.

(** C10.  In a run of the history handler in which the database returns
    a history with an analysis whose emotions mapping is empty, [max]
    raises [ValueError] on that mapping; the handler catches it, logs it,
    replies with the generic history-failure notice and returns: no
    listing is sent and no exception leaves the handler. *)
Theorem cmd_history_empty_mapping :
  forall (limit : Z) (history : History) (record : EmotionRecord),
    In (Call_get_user_history (from_user_id message) limit (Returns history))
       (trace run) ->
    In record (h_emotions history) ->
    er_emotions record = [] ->
    replies (trace run) = [HistoryError]
    /\ outcome run = Returns tt
    /\ In (Logging_error ValueError) (trace run)
    /\ (forall lines, ~ In (Reply (HistoryListing lines)) (trace run)).
Proof.
  intros limit history record H Hin Hempty.
  destruct (cmd_history_query _ _ H) as (El & Ed & Eh).
  destruct (@for_each_format_emotion_empty (h_emotions history) 1 record
              Hin Hempty) as (t & Et & Hprints).
  assert (Hrun : run
                 = (Call_get_database (Returns tt)
                      :: Call_get_user_history (from_user_id message) limit
                           (Returns history)
                      :: t ++ [Logging_error ValueError; Reply HistoryError],
                    Returns tt)).
  { subst run. unfold cmd_history. rewrite El, Ed. cbn. rewrite Eh. cbn.
    destruct (h_emotions history) as [| r rs]; [destruct Hin |].
    cbn [truthy_list negb andb]. rewrite Et. cbn. reflexivity. }
  rewrite Hrun. cbn. rewrite replies_app, (only_prints_no_replies _ Hprints).
  repeat split.
  - right. right. apply in_or_app. right. now left.
  - intros lines [Hl | [Hl | Hl]]; try discriminate Hl.
    apply in_app_or in Hl as [Hl | Hl].
    + apply Hprints in Hl. discriminate Hl.
    + split_in Hl.
Qed.

End EmptyMapping.

(** ** The health-check aggregator *)

Section Health.

Lemma Service_eqb_eq (a b : Service) : Service_eqb a b = true <-> a = b.
Proof. destruct a, b; cbn; split; congruence. Qed.

Lemma Service_eq_dec (a b : Service) : {a = b} + {a <> b}.
Proof. decide equality. Defined.

Lemma set_status_same (status : StatusMap) (name : Service) (v : Status) :
  set_status status name v name = v.
Proof.
  unfold set_status.
  now rewrite (proj2 (Service_eqb_eq name name) eq_refl).
Qed.

Lemma set_status_other (status : StatusMap) (name k : Service) (v : Status) :
  k <> name -> set_status status name v k = status k.
Proof.
  intros Hk. unfold set_status.
  destruct (Service_eqb k name) eqn:E; [| reflexivity].
  apply Service_eqb_eq in E. contradiction.
Qed.

(** Every arrangement the event loop picks is an arrangement of all the
    tasks. *)
Lemma insert_at_perm {A} (k : nat) (x : A) (l : list A) :
  Permutation (insert_at k x l) (x :: l).
Proof.
  unfold insert_at. rewrite <- (firstn_skipn k l) at 3.
  symmetry. apply Permutation_middle.
Qed.

Lemma completion_order_perm {A} (tasks : list A) :
  forall picks, Permutation (completion_order picks tasks) tasks.
Proof.
  induction tasks as [| t tasks IH]; intros picks; cbn.
  - apply perm_nil.
  - rewrite insert_at_perm. apply perm_skip, IH.
Qed.

(** Conversely the event loop can pick any arrangement of the tasks. *)
Lemma insert_at_length {A} (x : A) (l1 l2 : list A) :
  insert_at (List.length l1) x (l1 ++ l2) = l1 ++ x :: l2.
Proof.
  unfold insert_at.
  rewrite firstn_app, skipn_app, firstn_all, skipn_all, Nat.sub_diag.
  cbn. now rewrite app_nil_r.
Qed.

Lemma completion_order_any {A} (tasks : list A) :
  forall order, Permutation order tasks ->
                exists picks, completion_order picks tasks = order.
Proof.
  induction tasks as [| t tasks IH]; intros order Hperm.
  - apply Permutation_sym, Permutation_nil in Hperm. subst order.
    now exists [].
  - assert (Hin : In t order)
      by (apply (Permutation_in t (Permutation_sym Hperm)); now left).
    apply in_split in Hin as (l1 & l2 & ->).
    apply Permutation_sym, Permutation_cons_app_inv, Permutation_sym
      in Hperm.
    destruct (IH _ Hperm) as (picks & E).
    exists (List.length l1 :: picks). cbn. rewrite E.
    apply insert_at_length.
Qed.

Lemma every_service_completes (picks : list nat) (name : Service) :
  In name (completion_order picks service_order).
Proof.
  apply (Permutation_in name
           (Permutation_sym (completion_order_perm service_order picks))).
  destruct name; cbn; auto.
Qed.

Lemma wait_for_exceeds (p : Probe) :
  exceeds_timeout p -> wait_for p PROBE_TIMEOUT = Raises TimeoutError.
Proof.
  destruct p as [after o |]; cbn; [| reflexivity].
  intros H. apply Qlt_le_weak, Qle_bool_iff in H. now rewrite H.
Qed.

Lemma wait_for_raises (p : Probe) :
  probe_raises p -> exists e, wait_for p PROBE_TIMEOUT = Raises e.
Proof.
  destruct p as [after [b | e] |]; cbn; try contradiction.
  intros _. destruct (Qle_bool PROBE_TIMEOUT after); eauto.
Qed.

Variable env : Env.

(** A task never fails: whatever its probe does, it records a terminal
    status for its service, leaves the other entries alone and renders
    the table. *)
Lemma check_service_run (status : StatusMap) (name : Service) :
  check_service env status name
  = (task_events env status name,
     Returns (set_status status name (probe_status env name))).
Proof.
  unfold check_service, task_events, probe_status.
  destruct (wait_for (check_health env name) PROBE_TIMEOUT) as [[|] | e];
    reflexivity.
Qed.

Lemma probe_status_terminal (name : Service) :
  probe_status env name <> checking.
Proof.
  unfold probe_status.
  destruct (wait_for (check_health env name) PROBE_TIMEOUT) as [[|] | e];
    discriminate.
Qed.

Lemma task_events_facts (status : StatusMap) (name : Service) :
  reactions (task_events env status name) = []
  /\ ~ critical (task_events env status name)
  /\ In (Call_check_health name
           (wait_for (check_health env name) PROBE_TIMEOUT))
        (task_events env status name).
Proof.
  unfold task_events, critical.
  destruct (wait_for (check_health env name) PROBE_TIMEOUT) as [b | e];
    (split; [reflexivity | split; [| now left]]);
    intros (x & H); split_in H.
Qed.

(** The tasks all run to their end, in any order: the final map holds
    the status of its own probe for each service that had a task, and
    the initial entry for the others. *)
Lemma run_tasks_spec (order : list Service) :
  forall status : StatusMap,
  exists (t : Trace) (final : StatusMap),
    run_tasks env order status = (t, Returns final)
    /\ (forall k, In k order -> final k = probe_status env k)
    /\ (forall k, ~ In k order -> final k = status k)
    /\ reactions t = []
    /\ ~ critical t
    /\ (forall k, In k order ->
                  In (Call_check_health k
                        (wait_for (check_health env k) PROBE_TIMEOUT)) t).
Proof.
  induction order as [| name rest IH]; intros status.
  - exists [], status. cbn. repeat split; try tauto.
    intros (e & []).
  - destruct (IH (set_status status name (probe_status env name)))
      as (t & final & Erun & Hin & Hout & Hreact & Hcrit & Hcalls).
    destruct (task_events_facts status name) as (Hr1 & Hc1 & Hcall1).
    exists (task_events env status name ++ t), final.
    cbn [run_tasks]. rewrite check_service_run. cbn. rewrite Erun.
    repeat split.
    + intros k [<- | Hk].
      * destruct (in_dec Service_eq_dec name rest) as [Hi | Hn]; [auto |].
        rewrite (Hout _ Hn). apply set_status_same.
      * auto.
    + intros k Hk. rewrite Hout by (intros Hi; apply Hk; now right).
      apply set_status_other. intros ->. apply Hk. now left.
    + now rewrite reactions_app, Hr1, Hreact.
    + intros (e & He). apply in_app_or in He as [He | He].
      * apply Hc1. now exists e.
      * apply Hcrit. now exists e.
    + intros k [<- | Hk]; apply in_or_app; [left | right]; auto.
Qed.

Lemma all_success_iff (status : StatusMap) :
  all_success status = true <-> forall name, status name = success.
Proof.
  unfold all_success, values, service_order. cbn. split.
  - intros H name.
    destruct (status emotion) eqn:E1, (status poetry) eqn:E2,
      (status database) eqn:E3; cbn in H; try discriminate H.
    destruct name; assumption.
  - intros H. now rewrite !H.
Qed.

End Health.

Section HealthRun.

Variable env : Env.
Variable picks : list nat.
Variable message : Message.

Let run := cmd_health env picks message.

(** The run of the aggregator when the handles are there: the opening,
    the tasks, the closing reaction. *)
Lemma cmd_health_available :
  services_available env ->
  exists (t : Trace) (final : StatusMap),
    run = (Reply HealthChecking
             :: React THINK
             :: Edit_text (HealthTable
                             (map (status_line initial_status) service_order))
             :: Call_get_emotion_api (Returns tt)
             :: Call_get_poetry_api (Returns tt)
             :: Call_get_database (Returns tt)
             :: t ++ [React (if all_success final
                             then THUMBS_UP else THUMBS_DOWN)],
           Returns final)
    /\ (forall k, final k = probe_status env k)
    /\ reactions t = []
    /\ ~ critical t
    /\ (forall k, In (Call_check_health k
                        (wait_for (check_health env k) PROBE_TIMEOUT)) t).
Proof.
  intros (E1 & E2 & E3). subst run. unfold cmd_health, gather.
  destruct (run_tasks_spec env (completion_order picks service_order)
              initial_status)
    as (t & final & Erun & Hin & _ & Hreact & Hcrit & Hcalls).
  exists t, final. rewrite E1, E2, E3, Erun. cbn.
  repeat split; auto using every_service_completes.
Qed.

Lemma closing_signal_available (t : Trace) (e : Emoji) :
  reactions t = [] ->
  closing_signal
    (Reply HealthChecking
       :: React THINK
       :: Edit_text (HealthTable
                       (map (status_line initial_status) service_order))
       :: Call_get_emotion_api (Returns tt)
       :: Call_get_poetry_api (Returns tt)
       :: Call_get_database (Returns tt)
       :: t ++ [React e])
  = Some e.
Proof.
  intros Ht. unfold closing_signal. cbn. rewrite reactions_app, Ht.
  reflexivity.
Qed.

(** Without one of the handles no probe is launched and every status
    stays [checking]. *)
Lemma cmd_health_unavailable :
  ~ services_available env -> outcome run = Returns initial_status.
Proof.
  unfold services_available. subst run. unfold cmd_health.
  destruct (get_emotion_api env) as [[] | ?]; cbn; [| reflexivity].
  destruct (get_poetry_api env) as [[] | ?]; cbn; [| reflexivity].
  destruct (get_database env) as [[] | ?]; cbn; [| reflexivity].
  intros H. exfalso. apply H. repeat split.
Qed.

Lemma services_available_dec :
  services_available env \/ ~ services_available env.
Proof.
  unfold services_available.
  destruct (get_emotion_api env) as [[] | ?];
    destruct (get_poetry_api env) as [[] | ?];
    destruct (get_database env) as [[] | ?];
    try (right; intros (H1 & H2 & H3); discriminate); left; repeat split.
Qed.

(** C4.  In a run of the aggregator that launches its probes, a probe
    that does not settle within the timeout of 10, or that raises, leaves
    its service with the status [error].  The aggregator still ends
    normally, without its critical notice and with the aggregate-failure
    reaction; every other probe was run as well, and every other service
    ends with the terminal status of its own probe. *)
Theorem health_failed_probe_isolated :
  forall name : Service,
    services_available env ->
    exceeds_timeout (check_health env name)
    \/ probe_raises (check_health env name) ->
    exists final : StatusMap,
      outcome run = Returns final
      /\ final name = error
      /\ (forall other,
             final other = probe_status env other
             /\ final other <> checking
             /\ In (Call_check_health other
                      (wait_for (check_health env other) PROBE_TIMEOUT))
                   (trace run))
      /\ ~ critical (trace run)
      /\ closing_signal (trace run) = Some THUMBS_DOWN.
Proof.
  intros name Havail Hfail.
  destruct (cmd_health_available Havail)
    as (t & final & Erun & Hfinal & Hreact & Hcrit & Hcalls).
  assert (Hname : final name = error).
  { rewrite Hfinal. unfold probe_status. destruct Hfail as [H | H].
    - now rewrite (wait_for_exceeds _ H).
    - destruct (wait_for_raises _ H) as (e & ->). reflexivity. }
  assert (Hall : all_success final = false).
  { destruct (all_success final) eqn:E; [| reflexivity].
    rewrite all_success_iff in E. rewrite E in Hname. discriminate. }
  exists final. rewrite Erun. cbn [outcome trace fst snd]. rewrite Hall.
  repeat split.
  - exact Hname.
  - apply Hfinal.
  - rewrite Hfinal. apply probe_status_terminal.
  - do 6 right. apply in_or_app. left. apply Hcalls.
  - intros (e & He). split_in He.
    apply in_app_or in He as [He | He]; [| split_in He].
    apply Hcrit. now exists e.
  - now apply closing_signal_available.
Qed.

(** C5.  When the aggregator ends with every service settled (no status
    is [checking]), its closing reaction is the aggregate-success one
    exactly when every service ended with [success], and the
    aggregate-failure one as soon as a service ended with [error]. *)
Theorem health_closing_signal :
  forall final : StatusMap,
    outcome run = Returns final ->
    (forall name, final name <> checking) ->
    (closing_signal (trace run) = Some THUMBS_UP
     <-> forall name, final name = success)
    /\ ((exists name, final name = error) ->
        closing_signal (trace run) = Some THUMBS_DOWN).
Proof.
  intros final Hout Hsettled.
  destruct services_available_dec as [Havail | Hno].
  - destruct (cmd_health_available Havail)
      as (t & final' & Erun & _ & Hreact & _ & _).
    rewrite Erun in Hout |- *. cbn [outcome trace fst snd] in *.
    injection Hout as ->.
    rewrite (closing_signal_available _ _ Hreact).
    destruct (all_success final) eqn:E.
    + rewrite all_success_iff in E. split; [tauto |].
      intros (name & Hn). rewrite E in Hn. discriminate.
    + split; [| reflexivity]. split; [discriminate |].
      intros H. apply all_success_iff in H. congruence.
  - rewrite (cmd_health_unavailable Hno) in Hout. injection Hout as <-.
    exfalso. now apply (Hsettled emotion).
Qed.

End HealthRun.

(** ** The properties on sample runs *)

Section SampleRuns.

Import Scenario.

Local Open Scope string_scope.

Let generate : Message := message_of "/generate very happy".
Let analyze : Message := message_of "/emotions very happy".

(** The scenario of the specification: one EmotionRecord, one
    GenerationRecord, the poem in the reply. *)
Example cmd_format_scenario :
  cmd_format all_up generate
  = ([Call_get_emotion_api (Returns tt);
      Call_get_poetry_api (Returns tt);
      Call_get_database (Returns tt);
      Call_analyze_emotions {| ea_user_id := 42; ea_message := "very happy" |}
        (Returns (Some {| emotions := happy_sad |}));
      Call_log_emotion_analysis 42 happy_sad (Returns tt);
      Call_generate_poem {| pg_user_id := 42; pg_emotions := happy_sad |}
        (Returns (Some {| poem := "Joy is pouring..." |}));
      Call_log_generation 42 "very happy" "Joy is pouring..." (Returns tt);
      Reply (PoemReport "Joy is pouring...")],
     Returns tt).
Proof. reflexivity. Qed.

Lemma cmd_format_emotion_unavailable_witness :
  In (Call_analyze_emotions {| ea_user_id := 42; ea_message := "very happy" |}
        (Returns None))
     (trace (cmd_format emotion_down generate))
  /\ replies (trace (cmd_format emotion_down generate))
     = [EmotionServiceUnavailable]
  /\ outcome (cmd_format emotion_down generate) = Returns tt
  /\ poetry_calls (trace (cmd_format emotion_down generate)) = 0%nat
  /\ history_writes (trace (cmd_format emotion_down generate)) = [].
Proof.
  assert (H : In (Call_analyze_emotions
                    {| ea_user_id := 42; ea_message := "very happy" |}
                    (Returns None))
                 (trace (cmd_format emotion_down generate)))
    by (cbn; auto 10).
  split; [exact H |].
  exact (@cmd_format_emotion_unavailable emotion_down generate _ H).
Defined.

Lemma cmd_format_success_writes_witness :
  In (Call_analyze_emotions {| ea_user_id := 42; ea_message := "very happy" |}
        (Returns (Some {| emotions := happy_sad |})))
     (trace (cmd_format all_up generate))
  /\ In (Call_generate_poem {| pg_user_id := 42; pg_emotions := happy_sad |}
           (Returns (Some {| poem := "Joy is pouring..." |})))
        (trace (cmd_format all_up generate))
  /\ history_writes (trace (cmd_format all_up generate))
     = [WEmotionRecord 42 happy_sad;
        WGenerationRecord 42 "very happy" "Joy is pouring..."].
Proof.
  assert (H1 : In (Call_analyze_emotions
                     {| ea_user_id := 42; ea_message := "very happy" |}
                     (Returns (Some {| emotions := happy_sad |})))
                  (trace (cmd_format all_up generate)))
    by (cbn; auto 10).
  assert (H2 : In (Call_generate_poem
                     {| pg_user_id := 42; pg_emotions := happy_sad |}
                     (Returns (Some {| poem := "Joy is pouring..." |})))
                  (trace (cmd_format all_up generate)))
    by (cbn; auto 10).
  split; [exact H1 | split; [exact H2 |]].
  exact (proj1 (@cmd_format_success_writes all_up generate _ _ _ _ H1 H2)).
Defined.

Lemma cmd_format_poetry_unavailable_witness :
  In (Call_analyze_emotions {| ea_user_id := 42; ea_message := "very happy" |}
        (Returns (Some {| emotions := happy_sad |})))
     (trace (cmd_format poetry_down generate))
  /\ In (Call_generate_poem {| pg_user_id := 42; pg_emotions := happy_sad |}
           (Returns None))
        (trace (cmd_format poetry_down generate))
  /\ replies (trace (cmd_format poetry_down generate))
     = [PoetryServiceUnavailable]
  /\ history_writes (trace (cmd_format poetry_down generate))
     = [WEmotionRecord 42 happy_sad].
Proof.
  assert (H1 : In (Call_analyze_emotions
                     {| ea_user_id := 42; ea_message := "very happy" |}
                     (Returns (Some {| emotions := happy_sad |})))
                  (trace (cmd_format poetry_down generate)))
    by (cbn; auto 10).
  assert (H2 : In (Call_generate_poem
                     {| pg_user_id := 42; pg_emotions := happy_sad |}
                     (Returns None))
                  (trace (cmd_format poetry_down generate)))
    by (cbn; auto 10).
  split; [exact H1 | split; [exact H2 |]].
  destruct (@cmd_format_poetry_unavailable poetry_down generate _ _ _ H1 H2)
    as (Hr & _ & _ & Hw & _).
  split; [exact Hr | exact Hw].
Defined.

Lemma missing_text_short_circuits_witness :
  text (message_of "/generate   ") = Some ("/generate" ++ "   ")
  /\ is_word "/generate"
  /\ is_blank "   "
  /\ cmd_emotions all_up (message_of "/generate   ")
     = ([Reply EmotionsUsage], Returns tt)
  /\ cmd_format all_up (message_of "/generate   ")
     = ([Reply GenerateUsage], Returns tt).
Proof.
  assert (Hw : is_word "/generate") by (split; [discriminate | reflexivity]).
  assert (Hb : is_blank "   ") by reflexivity.
  split; [reflexivity | split; [exact Hw | split; [exact Hb |]]].
  destruct (@missing_text_short_circuits all_up (message_of "/generate   ")
              "/generate" "   " eq_refl Hw Hb)
    as (He & Hf & _).
  split; [exact He | exact Hf].
Defined.

Lemma cmd_emotions_history_writes_witness :
  In (Call_analyze_emotions {| ea_user_id := 42; ea_message := "very happy" |}
        (Returns (Some {| emotions := happy_sad |})))
     (trace (cmd_emotions all_up analyze))
  /\ get_database all_up = Returns tt
  /\ history_writes (trace (cmd_emotions all_up analyze))
     = [WEmotionRecord 42 happy_sad]
  /\ In (Call_analyze_emotions
           {| ea_user_id := 42; ea_message := "very happy" |} (Returns None))
        (trace (cmd_emotions emotion_down analyze))
  /\ history_writes (trace (cmd_emotions emotion_down analyze)) = [].
Proof.
  assert (H1 : In (Call_analyze_emotions
                     {| ea_user_id := 42; ea_message := "very happy" |}
                     (Returns (Some {| emotions := happy_sad |})))
                  (trace (cmd_emotions all_up analyze)))
    by (cbn; auto 10).
  assert (H2 : In (Call_analyze_emotions
                     {| ea_user_id := 42; ea_message := "very happy" |}
                     (Returns None))
                  (trace (cmd_emotions emotion_down analyze)))
    by (cbn; auto 10).
  split; [exact H1 | split; [reflexivity | split]].
  - exact (proj1 (proj1 (@cmd_emotions_history_writes all_up analyze)
                    _ _ H1 eq_refl)).
  - split; [exact H2 |].
    exact (proj1 (proj1 (proj2 (@cmd_emotions_history_writes
                                  emotion_down analyze)) _ H2)).
Defined.

Lemma cmd_history_empty_mapping_witness :
  In (Call_get_user_history 42 5
        (get_user_history empty_mapping_stored 42 5))
     (trace (cmd_history empty_mapping_stored (message_of "/history")))
  /\ replies (trace (cmd_history empty_mapping_stored (message_of "/history")))
     = [HistoryError]
  /\ outcome (cmd_history empty_mapping_stored (message_of "/history"))
     = Returns tt.
Proof.
  assert (H : In (Call_get_user_history 42 5
                    (get_user_history empty_mapping_stored 42 5))
                 (trace (cmd_history empty_mapping_stored
                           (message_of "/history"))))
    by (cbn; auto 10).
  split; [exact H |].
  destruct (@cmd_history_empty_mapping empty_mapping_stored
              (message_of "/history") 5 _
              {| er_performed_at := 1700000600; er_emotions := [] |}
              H (or_intror (or_introl eq_refl)) eq_refl)
    as (Hr & Ho & _).
  split; [exact Hr | exact Ho].
Defined.

Lemma health_failed_probe_isolated_witness :
  services_available poetry_down
  /\ exceeds_timeout (check_health poetry_down poetry)
  /\ exists final : StatusMap,
      outcome (cmd_health poetry_down [1; 0]%nat (message_of "/health"))
      = Returns final
      /\ final poetry = error
      /\ final emotion = success
      /\ final database = success
      /\ closing_signal
           (trace (cmd_health poetry_down [1; 0]%nat (message_of "/health")))
         = Some THUMBS_DOWN.
Proof.
  assert (Ha : services_available poetry_down) by (repeat split).
  assert (Ht : exceeds_timeout (check_health poetry_down poetry))
    by reflexivity.
  split; [exact Ha | split; [exact Ht |]].
  destruct (@health_failed_probe_isolated poetry_down [1; 0]%nat
              (message_of "/health") poetry Ha (or_introl Ht))
    as (final & Ho & Hp & Hothers & _ & Hclose).
  exists final. split; [exact Ho | split; [exact Hp |]].
  split; [exact (proj1 (Hothers emotion)) |].
  split; [exact (proj1 (Hothers database)) | exact Hclose].
Defined.

Lemma health_closing_signal_witness :
  exists final : StatusMap,
    outcome (cmd_health all_up [2; 1]%nat (message_of "/health"))
    = Returns final
    /\ (forall name, final name <> checking)
    /\ (forall name, final name = success)
    /\ closing_signal
         (trace (cmd_health all_up [2; 1]%nat (message_of "/health")))
       = Some THUMBS_UP.
Proof.
  eexists. split; [reflexivity |].
  assert (Hs : forall name,
             set_status
               (set_status (set_status initial_status database success)
                  poetry success) emotion success name = success)
    by (intros name; destruct name; reflexivity).
  split; [intros name; rewrite Hs; discriminate | split; [exact Hs |]].
  apply (proj1 (@health_closing_signal all_up [2; 1]%nat
                  (message_of "/health") _ eq_refl
                  ltac:(intros name; rewrite Hs; discriminate))).
  exact Hs.
Defined.

End SampleRuns.

(** ** Every run of /emotions and /generate *)

Import Observations.

Section GuardedHandlers.

Local Open Scope string_scope.

Variable env : Env.
Variable message : Message.

(** All the runs of a handler that starts by reading the command text. *)
Ltac every_run handler :=
  unfold handler;
  destruct (command_text message) as [t | ?]; cbn;
  [destruct (truthy_str t); cbn |];
  all_runs env.

(** X1.  Whatever the collaborators do, [cmd_emotions] and [cmd_format]
    end normally and send exactly one message, with [reply]. *)
Theorem guarded_handlers_reply_once :
  (outcome (cmd_emotions env message) = Returns tt
   /\ List.length (replies (trace (cmd_emotions env message))) = 1%nat
   /\ answers (trace (cmd_emotions env message)) = [])
  /\ (outcome (cmd_format env message) = Returns tt
      /\ List.length (replies (trace (cmd_format env message))) = 1%nat
      /\ answers (trace (cmd_format env message)) = []).
Proof.
  split.
  - every_run cmd_emotions; repeat split.
  - every_run cmd_format; repeat split.
Qed.

(** X2.  In every run of [cmd_format] the history writes are none, or one
    EmotionRecord, or one EmotionRecord followed by one GenerationRecord,
    all for the sender; each client is invoked at most once and the
    poetry client only after the emotion client. *)
Theorem cmd_format_writes_in_every_run :
  (history_writes (trace (cmd_format env message)) = []
   \/ (exists e,
          history_writes (trace (cmd_format env message))
          = [WEmotionRecord (from_user_id message) e])
   \/ (exists e request response,
          history_writes (trace (cmd_format env message))
          = [WEmotionRecord (from_user_id message) e;
             WGenerationRecord (from_user_id message) request response]))
  /\ (poetry_calls (trace (cmd_format env message))
      <= emotion_calls (trace (cmd_format env message)) <= 1)%nat.
Proof.
  every_run cmd_format; (split; [| cbn; lia]); eauto 6.
Qed.

(** X3.  In every run of [cmd_emotions] the poetry client is never
    invoked, no GenerationRecord is written, and the emotion client is
    invoked and an EmotionRecord written at most once, the write only
    after the call. *)
Theorem cmd_emotions_writes_in_every_run :
  poetry_calls (trace (cmd_emotions env message)) = 0%nat
  /\ generation_writes (trace (cmd_emotions env message)) = 0%nat
  /\ (emotion_writes (trace (cmd_emotions env message))
      <= emotion_calls (trace (cmd_emotions env message)) <= 1)%nat.
Proof.
  every_run cmd_emotions; cbn; repeat split; lia.
Qed.

(** X4.  A poetry request is always built from an emotion response of the
    same run: before the poetry client is invoked, the emotion client has
    returned a response and the write of its emotions for the sender has
    returned, and the request carries exactly these emotions and the
    sender's id. *)
Theorem poetry_request_from_emotions :
  forall (poetry_request : PoetryGenerationRequestDto)
         (o : Outcome (option PoetryGenerationResponseDto)),
    In (Call_generate_poem poetry_request o) (trace (cmd_format env message)) ->
    exists request response,
      poetry_request = {| pg_user_id := from_user_id message;
                          pg_emotions := emotions response |}
      /\ In (Call_analyze_emotions request (Returns (Some response)))
            (before_first is_poetry_call (trace (cmd_format env message)))
      /\ In (Call_log_emotion_analysis (from_user_id message)
               (emotions response) (Returns tt))
            (before_first is_poetry_call (trace (cmd_format env message))).
Proof.
  intros poetry_request o.
  every_run cmd_format; intros H; split_in H;
    injection H as <- _; do 2 eexists; cbn; auto 10.
Qed.

Lemma lstrip_head (s : string) (c : ascii) (r : string) :
  lstrip s = String c r -> isspace c = false.
Proof.
  induction s as [| a s IH]; cbn; [discriminate |].
  destruct (isspace a) eqn:E; [exact IH |].
  intros [= <- _]. exact E.
Qed.

(** The text after the command is empty or starts with a character that
    is not whitespace. *)
Lemma command_text_stripped (t : string) :
  command_text message = Returns t ->
  t = "" \/ exists c r, t = String c r /\ isspace c = false.
Proof.
  unfold command_text, split_maxsplit1.
  destruct (text message) as [s |]; [| discriminate].
  destruct (lstrip s) as [| a s1]; [discriminate |].
  destruct (span_word (String a s1)) as [w r].
  destruct (lstrip r) as [| c r1] eqn:E; intros [= <-]; [now left |].
  right. exists c, r1. split; [reflexivity |]. exact (lstrip_head _ E).
Qed.

(** X5.  The emotion client is only ever given the sender's id and the
    text that follows the command, which is then not empty and does not
    start with whitespace. *)
Theorem analyzed_text_is_command_argument :
  forall (request : EmotionAnalyzeRequestDto)
         (o : Outcome (option EmotionAnalyzeResponseDto)),
    In (Call_analyze_emotions request o) (trace (cmd_emotions env message))
    \/ In (Call_analyze_emotions request o) (trace (cmd_format env message)) ->
    ea_user_id request = from_user_id message
    /\ command_text message = Returns (ea_message request)
    /\ exists c r, ea_message request = String c r /\ isspace c = false.
Proof.
  intros request o.
  pose proof command_text_stripped as Hs.
  unfold cmd_emotions, cmd_format.
  destruct (command_text message) as [t | ?]; cbn.
  - destruct (Hs t eq_refl) as [-> | (c & r & -> & Hc)]; cbn.
    + intros [H | H]; split_in H.
    + all_runs env; intros [H | H]; split_in H; injection H as <- _;
        cbn; repeat split; eauto.
  - intros [H | H]; split_in H.
Qed.

End GuardedHandlers.

(** ** The [except] clause of /emotions and /generate *)



Section ExceptionPath.

Variable env : Env.
Variable message : Message.

Ltac every_run handler :=
  unfold handler;
  destruct (command_text message) as [t | ?]; cbn;
  [destruct (truthy_str t); cbn |];
  all_runs env.



End ExceptionPath.

(** ** Every run of /history *)

Section HistoryRuns.

Local Open Scope string_scope.
Local Open Scope list_scope.

Lemma prints_no_queries (t : Trace) :
  (forall ev, In ev t -> ev = Print) -> filter is_history_query t = [].
Proof.
  induction t as [| ev t IH]; [reflexivity |].
  intros H. rewrite (H ev (or_introl eq_refl)). cbn.
  apply IH. intros ev' Hev'. apply H. now right.
Qed.

Lemma prints_no_answers (t : Trace) :
  (forall ev, In ev t -> ev = Print) -> answers t = [].
Proof.
  induction t as [| ev t IH]; [reflexivity |].
  intros H. rewrite (H ev (or_introl eq_refl)). cbn.
  apply IH. intros ev' Hev'. apply H. now right.
Qed.

Lemma answers_app (t1 t2 : Trace) :
  answers (t1 ++ t2) = answers t1 ++ answers t2.
Proof.
  induction t1 as [| ev t1 IH]; [reflexivity |].
  destruct ev; cbn; rewrite ?IH; try reflexivity.
Qed.

Variable env : Env.
Variable message : Message.

Let run := cmd_history env message.

(** X8.  The database is queried at most once in a run of [cmd_history],
    for the sender and with the limit computed from the message, which
    lies between 0 and 20. *)
Theorem cmd_history_query_bounds :
  forall (user_id limit : Z) (o : Outcome History),
    In (Call_get_user_history user_id limit o) (trace run) ->
    user_id = from_user_id message
    /\ history_limit message = Returns limit
    /\ (0 <= limit <= MAX_LIMIT)%Z
    /\ o = get_user_history env user_id limit
    /\ List.length (filter is_history_query (trace run)) = 1%nat.
Proof.
  intros user_id limit o. subst run. unfold cmd_history.
  destruct (history_limit message) as [n | ?] eqn:El; cbn;
    [| intros H; split_in H].
  assert (Hn : (0 <= n <= MAX_LIMIT)%Z).
  { unfold history_limit in El.
    destruct (history_args message) as [args | ?]; [| discriminate].
    exact (parse_limit_range _ El). }
  destruct (get_database env) as [[] | ?]; cbn; [| intros H; split_in H].
  destruct (get_user_history env (from_user_id message) n) as [h | ?] eqn:Eh;
    cbn.
  - pose proof (@for_each_format_emotion_prints (h_emotions h) 1) as Hp.
    destruct (h_emotions h) as [| r rs]; cbn [truthy_list negb andb].
    + destruct (h_generations h); cbn; intros H; split_in H;
        injection H as <- <- <-; rewrite Eh; auto.
    + destruct (for_each format_emotion (enumerate 1 (r :: rs)))
        as [t [lines | ?]]; cbn in *; intros [H | [H | H]];
        try discriminate H;
        try (injection H as <- <- <-; rewrite Eh;
             rewrite ?filter_app, (prints_no_queries _ Hp); now auto);
        repeat match type of H with
               | In _ (_ ++ _) => apply in_app_or in H as [H | H]
               end;
        try (apply Hp in H; discriminate H); split_in H.
  - intros H; split_in H. injection H as <- <- <-. rewrite Eh. auto.
Qed.

(** X9.  When the database returns a history without analyses and
    without generations, the run is the query followed by the one
    "history is empty" notice, sent with [answer]; nothing is sent with
    [reply]. *)
Theorem cmd_history_empty_history :
  forall (limit : Z) (history : History),
    In (Call_get_user_history (from_user_id message) limit (Returns history))
       (trace run) ->
    h_emotions history = [] ->
    h_generations history = [] ->
    run = ([Call_get_database (Returns tt);
            Call_get_user_history (from_user_id message) limit
              (Returns history);
            Answer HistoryEmpty],
           Returns tt).
Proof.
  intros limit history H He Hg.
  destruct (cmd_history_query env message _ _ H) as (El & Ed & Eh).
  subst run. unfold cmd_history. rewrite El, Ed. cbn. rewrite Eh. cbn.
  now rewrite He, Hg.
Qed.

Lemma int_from_not_decimal (s : string) :
  forall acc, all_chars isdecimal s = false ->
              int_from acc s = Raises ValueError.
Proof.
  induction s as [| c s IH]; cbn; intros acc H; [discriminate |].
  destruct (isdecimal c); [apply IH; exact H | reflexivity].
Qed.

Lemma superscript_not_decimal (c : ascii) :
  is_superscript c = true -> isdecimal c = false.
Proof.
  unfold is_superscript, isdecimal. intros H.
  destruct (48 <=? N_of_ascii c)%N eqn:E1; [| reflexivity].
  destruct (N_of_ascii c <=? 57)%N eqn:E2; [| reflexivity].
  apply N.leb_le in E2.
  apply orb_prop in H as [H | H]; [apply orb_prop in H as [H | H] |];
    apply N.eqb_eq in H; lia.
Qed.

Lemma isdigit_char_cases (c : ascii) :
  isdigit_char c = isdecimal c || is_superscript c.
Proof.
  unfold isdigit_char, is_superscript. now rewrite !orb_assoc.
Qed.

Lemma any_superscript_not_decimal (a : string) :
  any_char is_superscript a = true -> all_chars isdecimal a = false.
Proof.
  induction a as [| c a IH]; cbn; [discriminate |].
  intros H. apply orb_prop in H as [H | H].
  - now rewrite (superscript_not_decimal _ H).
  - rewrite (IH H). apply andb_false_r.
Qed.

Lemma digits_and_superscripts_isdigit (a : string) :
  all_chars (fun c => isdecimal c || is_superscript c) a = true ->
  any_char is_superscript a = true ->
  isdigit a = true.
Proof.
  intros Hall Hany. destruct a as [| c a]; [discriminate |].
  unfold isdigit. revert Hall. generalize (String c a). clear.
  induction s as [| c s IH]; cbn; [reflexivity |].
  intros H. apply andb_prop in H as [Hc Hs].
  now rewrite isdigit_char_cases, Hc, IH.
Qed.

(** X10.  A first argument written with the digits 0-9 and the
    superscript digits U+00B2, U+00B3, U+00B9, with at least one
    superscript, passes [isdigit] and makes [int] raise [ValueError]:
    the handler replies with the history-failure notice without querying
    the database. *)
Theorem cmd_history_superscript_digit :
  forall (a : string) (rest : list string),
    history_args message = Returns (a :: rest) ->
    all_chars (fun c => isdecimal c || is_superscript c) a = true ->
    any_char is_superscript a = true ->
    run = ([Logging_error ValueError; Reply HistoryError], Returns tt).
Proof.
  intros a rest Ha Hall Hany. subst run. unfold cmd_history, history_limit.
  rewrite Ha. cbn. rewrite (digits_and_superscripts_isdigit _ Hall Hany).
  pose proof (any_superscript_not_decimal _ Hany) as Hn.
  destruct a as [| c a]; [discriminate |].
  unfold int. now rewrite (int_from_not_decimal _ 0%Z Hn).
Qed.

End HistoryRuns.

(** ** The listing of /history *)

Section HistoryListing.

Local Open Scope nat_scope.

(** The loop over analyses whose mappings are not empty: one line for
    each, numbered from [start] on, with the record's prevailing
    emotion. *)
Lemma for_each_format_emotion_ok (records : list EmotionRecord) :
  forall start,
    (forall r, In r records -> er_emotions r <> []) ->
    exists t lines,
      for_each format_emotion (enumerate start records) = (t, Returns lines)
      /\ (forall ev, In ev t -> ev = Print)
      /\ List.length lines = List.length records
      /\ forall i r,
          nth_error records i = Some r ->
          exists top,
            top_emotion r = Returns top
            /\ nth_error lines i
               = Some (EmotionLine (start + i) (er_performed_at r) top).
Proof.
  induction records as [| r records IH]; intros start Hne.
  - exists [], []. cbn. repeat split; try tauto.
    intros [| i] r; discriminate.
  - destruct (IH (S start)) as (t & lines & E & Hp & Hlen & Hnth).
    { intros r' Hr'. apply Hne. now right. }
    assert (Hr : exists top, top_emotion r = Returns top).
    { unfold top_emotion, max_by.
      destruct (er_emotions r) eqn:Er; [| eauto].
      exfalso. apply (Hne r); [now left | exact Er]. }
    destruct Hr as (top & Etop).
    exists (Print :: t), (EmotionLine start (er_performed_at r) top :: lines).
    cbn [enumerate for_each]. unfold format_emotion at 1.
    rewrite Etop. cbn. rewrite E. cbn. rewrite app_nil_r.
    repeat split.
    + intros ev [<- | Hev]; [reflexivity | auto].
    + now rewrite Hlen.
    + intros [| i] r'; cbn.
      * intros [= <-]. exists top. now rewrite Nat.add_0_r.
      * intros Hi. destruct (Hnth i r' Hi) as (top' & E' & Hl).
        exists top'. split; [exact E' |].
        now rewrite Nat.add_succ_r.
Qed.

Lemma format_generation_nth (gens : list GenerationRecord) :
  forall start j g,
    nth_error gens j = Some g ->
    nth_error (map format_generation (enumerate start gens)) j
    = Some (GenerationLine (start + j) (gr_performed_at g) (request_text g)
              (response_text g)).
Proof.
  induction gens as [| g0 gens IH]; intros start [| j] g; cbn;
    try discriminate.
  - intros [= <-]. now rewrite Nat.add_0_r.
  - intros Hj. rewrite (IH (S start) j g Hj). now rewrite Nat.add_succ_r.
Qed.

Lemma enumerate_length {A} (l : list A) :
  forall start, List.length (enumerate start l) = List.length l.
Proof.
  induction l as [| x l IH]; intros start; cbn; [reflexivity |].
  now rewrite IH.
Qed.

(** The section of the analyses, as [cmd_history] builds it. *)
Lemma emotion_section_ok (records : list EmotionRecord) :
  (forall r, In r records -> er_emotions r <> []) ->
  exists t lines,
    (if truthy_list records
     then (ls <- for_each format_emotion (enumerate 1 records) ;;
           ret (EmotionsHeader :: ls))%handler
     else ret []) = (t, Returns lines)
    /\ (forall ev, In ev t -> ev = Print)
    /\ List.length lines = section_size records
    /\ (records <> [] -> nth_error lines 0 = Some EmotionsHeader)
    /\ forall i r,
        nth_error records i = Some r ->
        exists top,
          top_emotion r = Returns top
          /\ nth_error lines (S i)
             = Some (EmotionLine (S i) (er_performed_at r) top).
Proof.
  intros Hne.
  destruct (for_each_format_emotion_ok records 1 Hne)
    as (t & ls & Ef & Hp & Hlen & Hnth).
  destruct records as [| r rs].
  - exists [], []. cbn. repeat split; try tauto; try congruence.
    intros [| i] r; discriminate.
  - exists t, (EmotionsHeader :: ls).
    cbn [truthy_list]. rewrite Ef. cbn. rewrite app_nil_r.
    repeat split; auto.
Qed.

(** The section of the generations, as [cmd_history] builds it. *)
Lemma generation_section_ok (gens : list GenerationRecord) :
  forall lines,
    lines = (if truthy_list gens
             then GenerationsHeader
                    :: map format_generation (enumerate 1 gens)
             else []) ->
    List.length lines = section_size gens
    /\ (gens <> [] -> nth_error lines 0 = Some GenerationsHeader)
    /\ forall j g,
        nth_error gens j = Some g ->
        nth_error lines (S j)
        = Some (GenerationLine (S j) (gr_performed_at g) (request_text g)
                  (response_text g)).
Proof.
  intros lines ->.
  pose proof (format_generation_nth gens 1) as Hgen.
  pose proof (enumerate_length gens 1) as Hlen.
  destruct gens as [| g gs].
  - cbn. repeat split; try congruence. intros [| j] g; discriminate.
  - cbn [truthy_list section_size]. repeat split.
    + cbn [List.length]. now rewrite length_map, Hlen.
    + intros j g' Hj. exact (Hgen j g' Hj).
Qed.

Variable env : Env.
Variable message : Message.

Let run := cmd_history env message.

(** X11.  When the database returns a history that is not empty and in
    which every analysis has a non-empty mapping, the handler replies
    with one listing: the analyses first (a header, then one line for
    each in the order of the database, numbered from 1, with the date
    and the prevailing emotion of the record), then the generations (a
    header, then one numbered line for each with its request and
    response); a section without records is left out. *)
Theorem cmd_history_listing :
  forall (limit : Z) (history : History),
    In (Call_get_user_history (from_user_id message) limit (Returns history))
       (trace run) ->
    (forall r, In r (h_emotions history) -> er_emotions r <> []) ->
    h_emotions history <> [] \/ h_generations history <> [] ->
    exists lines,
      replies (trace run) = [HistoryListing lines]
      /\ answers (trace run) = []
      /\ outcome run = Returns tt
      /\ List.length lines
         = section_size (h_emotions history)
           + section_size (h_generations history)
      /\ (h_emotions history <> [] -> nth_error lines 0 = Some EmotionsHeader)
      /\ (forall i r,
             nth_error (h_emotions history) i = Some r ->
             exists top,
               top_emotion r = Returns top
               /\ nth_error lines (S i)
                  = Some (EmotionLine (S i) (er_performed_at r) top))
      /\ (h_generations history <> [] ->
          nth_error lines (section_size (h_emotions history))
          = Some GenerationsHeader)
      /\ (forall j g,
             nth_error (h_generations history) j = Some g ->
             nth_error lines (section_size (h_emotions history) + S j)
             = Some (GenerationLine (S j) (gr_performed_at g)
                       (request_text g) (response_text g))).
Proof.
  intros limit history H Hne Hsome.
  destruct (cmd_history_query env message _ _ H) as (El & Ed & Eh).
  destruct (emotion_section_ok (h_emotions history) Hne)
    as (t & elines & Ee & Hp & Helen & Hehead & Henth).
  destruct (@generation_section_ok (h_generations history) _ eq_refl)
    as (Hglen & Hghead & Hgnth).
  set (glines := if truthy_list (h_generations history)
                 then GenerationsHeader
                        :: map format_generation
                             (enumerate 1 (h_generations history))
                 else []) in *.
  assert (Hcond : negb (truthy_list (h_emotions history))
                  && negb (truthy_list (h_generations history)) = false).
  { destruct (h_emotions history), (h_generations history); cbn;
      try reflexivity. destruct Hsome; congruence. }
  assert (Hrun : run
                 = (Call_get_database (Returns tt)
                      :: Call_get_user_history (from_user_id message) limit
                           (Returns history)
                      :: t ++ [Reply (HistoryListing (elines ++ glines))],
                    Returns tt)).
  { subst run. unfold cmd_history. rewrite El, Ed. cbn. rewrite Eh. cbn.
    rewrite Hcond, Ee. cbn. reflexivity. }
  assert (Hsent : replies (trace run) = [HistoryListing (elines ++ glines)]
                  /\ answers (trace run) = []
                  /\ outcome run = Returns tt).
  { rewrite Hrun. cbn.
    now rewrite replies_app, answers_app,
      (only_prints_no_replies _ Hp), (prints_no_answers _ Hp). }
  destruct Hsent as (Hr & Ha & Ho).
  exists (elines ++ glines).
  split; [exact Hr | split; [exact Ha | split; [exact Ho |]]].
  assert (Hpos : forall i r, nth_error (h_emotions history) i = Some r ->
                             S i < List.length elines).
  { intros i r Hi. destruct (Henth i r Hi) as (top & _ & Hl).
    apply nth_error_Some. rewrite Hl. discriminate. }
  repeat split.
  - now rewrite length_app, Helen, Hglen.
  - intros Hn. rewrite nth_error_app1; [auto |].
    rewrite Helen. destruct (h_emotions history); [congruence | cbn; lia].
  - intros i r Hi. destruct (Henth i r Hi) as (top & Et & Hl).
    exists top. split; [exact Et |].
    rewrite nth_error_app1; [exact Hl | exact (Hpos i r Hi)].
  - intros Hn. rewrite <- Helen.
    rewrite nth_error_app2 by lia. rewrite Nat.sub_diag. auto.
  - intros j g Hj. rewrite <- Helen.
    rewrite nth_error_app2 by lia.
    replace (List.length elines + S j - List.length elines) with (S j)
      by lia.
    auto.
Qed.

End HistoryListing.

(** ** The arguments of /history *)

Section Words.

Local Open Scope string_scope.

Lemma all_chars_app (p : ascii -> bool) (s1 s2 : string) :
  all_chars p (s1 ++ s2) = all_chars p s1 && all_chars p s2.
Proof.
  induction s1 as [| c s1 IH]; cbn; [reflexivity |].
  now rewrite IH, andb_assoc.
Qed.

Lemma truthy_str_word (cur : string) :
  truthy_str cur = true ->
  all_chars (fun c => negb (isspace c)) cur = true ->
  is_word cur.
Proof.
  intros Ht Hc. split; [| exact Hc]. now destruct cur.
Qed.

(** [split] yields words: none is empty, none holds whitespace. *)
Lemma split_from_words (s : string) :
  forall cur w,
    all_chars (fun c => negb (isspace c)) cur = true ->
    In w (split_from cur s) ->
    is_word w.
Proof.
  induction s as [| c s IH]; intros cur w Hcur; cbn.
  - destruct (truthy_str cur) eqn:Ht; [| intros []].
    intros [<- | []]. now apply truthy_str_word.
  - destruct (isspace c) eqn:Hc.
    + destruct (truthy_str cur) eqn:Ht.
      * intros [<- | Hw]; [now apply truthy_str_word |].
        now apply (IH "" w).
      * now apply (IH "" w).
    + apply IH. rewrite all_chars_app, Hcur. cbn. now rewrite Hc.
Qed.

(** X12.  Every argument [cmd_history] reads after the command is a
    word: it is not empty and holds no whitespace. *)
Theorem history_args_are_words :
  forall (message : Message) (args : list string) (a : string),
    history_args message = Returns args ->
    In a args ->
    is_word a.
Proof.
  intros message args a. unfold history_args, slice_from_1, split.
  destruct (text message) as [t |]; [| discriminate].
  intros [= <-] Ha.
  apply (@split_from_words t "" a eq_refl).
  destruct (split_from "" t); [destruct Ha | now right].
Qed.

End Words.

(** ** The runs of the health-check aggregator *)

Section HealthTasks.

Local Open Scope nat_scope.

Variable env : Env.

Lemma tables_app (t1 t2 : Trace) : tables (t1 ++ t2) = tables t1 ++ tables t2.
Proof.
  induction t1 as [| ev t1 IH]; [reflexivity |].
  destruct ev as [| | | | | | | | | n | n | n | | |]; cbn; rewrite ?IH;
    try reflexivity.
  destruct n; cbn; rewrite ?IH; reflexivity.
Qed.

Lemma probes_of_app (name : Service) (t1 t2 : Trace) :
  probes_of name (t1 ++ t2) = probes_of name t1 + probes_of name t2.
Proof. unfold probes_of. now rewrite filter_app, length_app. Qed.

(** The run of the tasks, one task at a time. *)
Lemma run_tasks_cons (name : Service) (rest : list Service)
      (status : StatusMap) :
  run_tasks env (name :: rest) status
  = (task_events env status name
       ++ trace (run_tasks env rest
                   (set_status status name (probe_status env name))),
     outcome (run_tasks env rest
                (set_status status name (probe_status env name)))).
Proof.
  cbn [run_tasks]. rewrite check_service_run. cbn.
  now destruct (run_tasks env rest
                  (set_status status name (probe_status env name))).
Qed.

Lemma run_tasks_trace_cons (name : Service) (rest : list Service)
      (status : StatusMap) :
  trace (run_tasks env (name :: rest) status)
  = task_events env status name
      ++ trace (run_tasks env rest
                  (set_status status name (probe_status env name))).
Proof. now rewrite run_tasks_cons. Qed.

Lemma run_tasks_outcome_cons (name : Service) (rest : list Service)
      (status : StatusMap) :
  outcome (run_tasks env (name :: rest) status)
  = outcome (run_tasks env rest
               (set_status status name (probe_status env name))).
Proof. now rewrite run_tasks_cons. Qed.

Lemma task_events_tables (status : StatusMap) (name : Service) :
  tables (task_events env status name)
  = [map (status_line (set_status status name (probe_status env name)))
         service_order].
Proof.
  unfold task_events.
  now destruct (wait_for (check_health env name) PROBE_TIMEOUT).
Qed.

Lemma Service_eqb_dec (a b : Service) :
  Service_eqb a b = if Service_eq_dec a b then true else false.
Proof. destruct a, b; reflexivity. Qed.

Lemma task_events_probes (status : StatusMap) (name k : Service) :
  probes_of k (task_events env status name)
  = if Service_eq_dec name k then 1 else 0.
Proof.
  unfold task_events, probes_of.
  destruct (wait_for (check_health env name) PROBE_TIMEOUT); cbn;
    rewrite Service_eqb_dec; now destruct (Service_eq_dec name k).
Qed.

(** Each task awaits its probe once and renders one table. *)
Lemma run_tasks_counts (order : list Service) :
  forall status,
    (forall k, probes_of k (trace (run_tasks env order status))
               = count_occ Service_eq_dec order k)
    /\ List.length (tables (trace (run_tasks env order status)))
       = List.length order.
Proof.
  induction order as [| name rest IH]; intros status.
  - split; reflexivity.
  - rewrite run_tasks_trace_cons.
    destruct (IH (set_status status name (probe_status env name)))
      as (Hp & Ht).
    split.
    + intros k. rewrite probes_of_app, task_events_probes, Hp. cbn.
      now destruct (Service_eq_dec name k).
    + rewrite tables_app, task_events_tables, length_app, Ht. reflexivity.
Qed.

(** The table rendered last shows the final statuses. *)
Lemma run_tasks_last_table (order : list Service) :
  forall status final,
    order <> [] ->
    outcome (run_tasks env order status) = Returns final ->
    nth_error (tables (trace (run_tasks env order status)))
              (List.length order - 1)
    = Some (map (status_line final) service_order).
Proof.
  induction order as [| name rest IH]; intros status final Hne; [congruence |].
  rewrite run_tasks_trace_cons, run_tasks_outcome_cons.
  rewrite tables_app, task_events_tables.
  destruct rest as [| name' rest'].
  - cbn. now intros [= <-].
  - intros Hout.
    specialize (IH _ final ltac:(discriminate) Hout).
    cbn [List.length Nat.sub app nth_error] in *.
    rewrite Nat.sub_0_r in IH. exact IH.
Qed.

Lemma pending_after_task (status : StatusMap) (name : Service) (v : Status) :
  status name = checking ->
  v <> checking ->
  pending (map (status_line (set_status status name v)) service_order)
  = pending (map (status_line status) service_order) - 1.
Proof.
  intros Hs Hv. unfold pending, status_line, set_status, service_order.
  destruct name; cbn; rewrite Hs;
    destruct v; try congruence;
    destruct (status emotion), (status poetry), (status database);
    try discriminate Hs; reflexivity.
Qed.

(** Every task takes one service out of the pending ones: the tables
    show one hourglass less each time. *)
Lemma run_tasks_pending (order : list Service) :
  forall status,
    NoDup order ->
    (forall k, In k order -> status k = checking) ->
    map pending (tables (trace (run_tasks env order status)))
    = map (fun i => pending (map (status_line status) service_order) - S i)
          (seq 0 (List.length order)).
Proof.
  induction order as [| name rest IH]; intros status Hnd Hc; [reflexivity |].
  rewrite run_tasks_trace_cons.
  rewrite tables_app, task_events_tables.
  apply NoDup_cons_iff in Hnd as [Hnotin Hnd].
  cbn [app map List.length seq].
  rewrite (pending_after_task status name
             (Hc name (or_introl eq_refl)) (probe_status_terminal env name)).
  f_equal.
  rewrite IH; [| exact Hnd |].
  - rewrite (pending_after_task status name
               (Hc name (or_introl eq_refl)) (probe_status_terminal env name)).
    rewrite <- seq_shift, map_map. apply map_ext. intros i. lia.
  - intros k Hk. rewrite set_status_other; [apply Hc; now right |].
    intros ->. contradiction.
Qed.

End HealthTasks.

Section HealthRuns.

Local Open Scope nat_scope.

Variable env : Env.
Variable message : Message.

(** The run of the aggregator around its tasks. *)
Lemma cmd_health_tasks (picks : list nat) (final : StatusMap) :
  services_available env ->
  outcome (run_tasks env (completion_order picks service_order)
             initial_status) = Returns final ->
  cmd_health env picks message
  = (Reply HealthChecking
       :: React THINK
       :: Edit_text (HealthTable
                       (map (status_line initial_status) service_order))
       :: Call_get_emotion_api (Returns tt)
       :: Call_get_poetry_api (Returns tt)
       :: Call_get_database (Returns tt)
       :: trace (run_tasks env (completion_order picks service_order)
                   initial_status)
       ++ [React (if all_success final then THUMBS_UP else THUMBS_DOWN)],
     Returns final).
Proof.
  intros (E1 & E2 & E3). unfold cmd_health, gather.
  rewrite E1, E2, E3.
  destruct (run_tasks env (completion_order picks service_order)
              initial_status) as [t [f | e]]; cbn; [| discriminate].
  now intros [= ->].
Qed.

Lemma run_tasks_returns (order : list Service) (status : StatusMap) :
  exists final, outcome (run_tasks env order status) = Returns final
                /\ forall k, In k order -> final k = probe_status env k.
Proof.
  destruct (run_tasks_spec env order status)
    as (t & final & E & Hin & _).
  exists final. now rewrite E.
Qed.

Lemma completion_order_facts (picks : list nat) :
  List.length (completion_order picks service_order) = 3
  /\ NoDup (completion_order picks service_order)
  /\ forall k, count_occ Service_eq_dec
                 (completion_order picks service_order) k = 1.
Proof.
  pose proof (completion_order_perm service_order picks) as Hperm.
  split; [| split].
  - now rewrite (Permutation_length Hperm).
  - apply (Permutation_NoDup (Permutation_sym Hperm)).
    repeat constructor; cbn; intuition discriminate.
  - intros k.
    rewrite (proj1 (Permutation_count_occ Service_eq_dec _ _) Hperm k).
    now destruct k.
Qed.

(** X13.  The result of the aggregator does not depend on the order in
    which the probes settle: two runs against the same services end with
    the same status for every service and with the same closing
    reaction. *)
Theorem health_schedule_independent :
  forall picks1 picks2 : list nat,
  exists final1 final2 : StatusMap,
    outcome (cmd_health env picks1 message) = Returns final1
    /\ outcome (cmd_health env picks2 message) = Returns final2
    /\ (forall name, final1 name = final2 name)
    /\ closing_signal (trace (cmd_health env picks1 message))
       = closing_signal (trace (cmd_health env picks2 message)).
Proof.
  intros picks1 picks2.
  destruct (services_available_dec env) as [Havail | Hno].
  - destruct (@cmd_health_available env picks1 message Havail)
      as (t1 & f1 & E1 & Hf1 & Hr1 & _).
    destruct (@cmd_health_available env picks2 message Havail)
      as (t2 & f2 & E2 & Hf2 & Hr2 & _).
    exists f1, f2. rewrite E1, E2. cbn [outcome trace fst snd].
    assert (Hsame : forall name, f1 name = f2 name)
      by (intros name; now rewrite Hf1, Hf2).
    repeat split; [exact Hsame |].
    rewrite !closing_signal_available by assumption.
    assert (all_success f1 = all_success f2) as ->; [| reflexivity].
    unfold all_success, values. f_equal. apply map_ext. exact Hsame.
  - exists initial_status, initial_status.
    rewrite !(@cmd_health_unavailable env _ message Hno).
    repeat split.
    revert Hno. unfold services_available, cmd_health.
    destruct (get_emotion_api env) as [[] | ?]; cbn; [| reflexivity].
    destruct (get_poetry_api env) as [[] | ?]; cbn; [| reflexivity].
    destruct (get_database env) as [[] | ?]; cbn; [| reflexivity].
    intros H. exfalso. apply H. repeat split.
Qed.

(** X14.  When one of the three handle lookups raises, the aggregator
    takes its critical path: no probe is awaited, every status stays
    [checking], and the run ends with the critical notice carrying the
    exception of that lookup and with the warning reaction. *)
Theorem health_critical_path :
  forall picks : list nat,
    ~ services_available env ->
    outcome (cmd_health env picks message) = Returns initial_status
    /\ closing_signal (trace (cmd_health env picks message)) = Some WARNING
    /\ (forall name,
           probes_of name (trace (cmd_health env picks message)) = 0)
    /\ exists e,
        last_events 2 (trace (cmd_health env picks message))
        = [Edit_text (HealthCritical e); React WARNING]
        /\ (get_emotion_api env = Raises e
            \/ get_poetry_api env = Raises e
            \/ get_database env = Raises e).
Proof.
  intros picks. unfold services_available, cmd_health.
  destruct (get_emotion_api env) as [[] | e1]; cbn;
    [| intros _; repeat split; eauto].
  destruct (get_poetry_api env) as [[] | e2]; cbn;
    [| intros _; repeat split; eauto].
  destruct (get_database env) as [[] | e3]; cbn;
    [| intros _; repeat split; eauto].
  intros H. exfalso. apply H. repeat split.
Qed.

(** X15.  In a run that launches the probes, the probe of each service
    is awaited exactly once and four tables are rendered: the initial
    one and one after each probe. *)
Theorem health_each_service_probed_once :
  forall picks : list nat,
    services_available env ->
    (forall name,
        probes_of name (trace (cmd_health env picks message)) = 1)
    /\ List.length (tables (trace (cmd_health env picks message))) = 4.
Proof.
  intros picks Havail.
  destruct (run_tasks_returns (completion_order picks service_order)
              initial_status) as (final & Hout & _).
  rewrite (cmd_health_tasks picks Havail Hout). cbn [trace fst].
  destruct (run_tasks_counts env (completion_order picks service_order)
              initial_status) as (Hp & Ht).
  destruct (completion_order_facts picks) as (Hlen & _ & Hocc).
  split.
  - intros name.
    change (probes_of name
              ([Reply HealthChecking; React THINK;
                Edit_text (HealthTable
                             (map (status_line initial_status)
                                  service_order));
                Call_get_emotion_api (Returns tt);
                Call_get_poetry_api (Returns tt);
                Call_get_database (Returns tt)]
                 ++ trace (run_tasks env
                             (completion_order picks service_order)
                             initial_status)
                 ++ [React (if all_success final
                            then THUMBS_UP else THUMBS_DOWN)]) = 1).
    rewrite !probes_of_app, Hp, Hocc. reflexivity.
  - change (List.length
              (tables
                 ([Reply HealthChecking; React THINK;
                   Edit_text (HealthTable
                                (map (status_line initial_status)
                                     service_order));
                   Call_get_emotion_api (Returns tt);
                   Call_get_poetry_api (Returns tt);
                   Call_get_database (Returns tt)]
                    ++ trace (run_tasks env
                                (completion_order picks service_order)
                                initial_status)
                    ++ [React (if all_success final
                               then THUMBS_UP else THUMBS_DOWN)])) = 4).
    rewrite !tables_app, !length_app, Ht, Hlen. reflexivity.
Qed.

(** X16.  In a run that launches the probes, the tables rendered show
    three, two, one and finally no service as still being checked, and
    the last table shows the final status of every service. *)
Theorem health_progress_display :
  forall picks : list nat,
    services_available env ->
    map pending (tables (trace (cmd_health env picks message)))
    = [3; 2; 1; 0]
    /\ forall final,
        outcome (cmd_health env picks message) = Returns final ->
        nth_error (tables (trace (cmd_health env picks message))) 3
        = Some (map (status_line final) service_order).
Proof.
  intros picks Havail.
  destruct (run_tasks_returns (completion_order picks service_order)
              initial_status) as (final & Hout & _).
  destruct (completion_order_facts picks) as (Hlen & Hnd & _).
  pose proof (@run_tasks_pending env _ initial_status Hnd
                (fun k _ => eq_refl)) as Hpend.
  pose proof (@run_tasks_last_table env
                (completion_order picks service_order) initial_status final)
    as Hlast.
  pose proof (run_tasks_counts env (completion_order picks service_order)
                initial_status) as (_ & Ht).
  rewrite Hlen in *.
  rewrite (cmd_health_tasks picks Havail Hout). cbn [trace outcome fst snd].
  change (tables
            (Reply HealthChecking
               :: React THINK
               :: Edit_text (HealthTable
                               (map (status_line initial_status)
                                    service_order))
               :: Call_get_emotion_api (Returns tt)
               :: Call_get_poetry_api (Returns tt)
               :: Call_get_database (Returns tt)
               :: trace (run_tasks env
                           (completion_order picks service_order)
                           initial_status)
               ++ [React (if all_success final
                          then THUMBS_UP else THUMBS_DOWN)]))
    with (map (status_line initial_status) service_order
            :: tables (trace (run_tasks env
                                (completion_order picks service_order)
                                initial_status)
                       ++ [React (if all_success final
                                  then THUMBS_UP else THUMBS_DOWN)])).
  rewrite tables_app. cbn [tables]. rewrite app_nil_r.
  split.
  - cbn [map]. rewrite Hpend. reflexivity.
  - intros final' [= <-]. cbn [nth_error].
    apply Hlast; [| exact Hout].
    intros Hnil. rewrite Hnil in Hlen. discriminate.
Qed.

(** X17.  In a run that launches the probes, a service ends with
    [success] exactly when its probe settles before the timeout of 10
    expires, with a true result; in every other case (a false result, an
    exception, a probe still running when the timeout expires) it ends
    with [error]. *)
Theorem health_status_of_probe :
  forall (picks : list nat) (final : StatusMap) (name : Service),
    services_available env ->
    outcome (cmd_health env picks message) = Returns final ->
    (final name = success
     <-> exists after,
        check_health env name = Settles after (Returns true)
        /\ (after < PROBE_TIMEOUT)%Q)
    /\ (final name = success \/ final name = error).
Proof.
  intros picks final name Havail Hout.
  destruct (@cmd_health_available env picks message Havail)
    as (t & f & E & Hf & _).
  rewrite E in Hout. cbn [outcome snd] in Hout. injection Hout as <-.
  rewrite Hf. unfold probe_status, wait_for.
  destruct (check_health env name) as [after [[|] | e] |].
  - destruct (Qle_bool PROBE_TIMEOUT after) eqn:Eq.
    + split; [| now right]. split; [discriminate |].
      intros (a & [= <-] & Ha). apply Qle_bool_iff in Eq.
      exfalso. exact (Qlt_not_le _ _ Ha Eq).
    + split; [| now left]. split; [| reflexivity].
      intros _. exists after. split; [reflexivity |].
      apply Qnot_le_lt. intros Hle. apply Qle_bool_iff in Hle. congruence.
  - destruct (Qle_bool PROBE_TIMEOUT after);
      (split; [| now right]); (split; [discriminate |]);
      intros (a & Hs & _); discriminate.
  - destruct (Qle_bool PROBE_TIMEOUT after);
      (split; [| now right]); (split; [discriminate |]);
      intros (a & Hs & _); discriminate.
  - split; [| now right]. split; [discriminate |].
    intros (a & Hs & _). discriminate.
Qed.

End HealthRuns.

(** ** /start, /help, /about and /user_data *)

Section ChatHandlers.

Import Chat.

Local Open Scope string_scope.
Local Open Scope list_scope.

(** In a dict every key gives its own value. *)
Lemma dict_get_entry (d : Emotions) :
  NoDup (map fst d) ->
  forall k v, In (k, v) d -> dict_get d k = Some v.
Proof.
  induction d as [| [k0 v0] d IH]; intros Hnd k v; cbn; [intros [] |].
  cbn [map fst] in Hnd. apply NoDup_cons_iff in Hnd as [Hnotin Hnd].
  intros [[= <- <-] | Hin].
  - now rewrite String.eqb_refl.
  - destruct (String.eqb k0 k) eqn:E; [| exact (IH Hnd k v Hin)].
    apply String.eqb_eq in E. subst k0. exfalso. apply Hnotin.
    change k with (fst (k, v)). now apply in_map.
Qed.

Lemma emotion_dict_keys (w : World) :
  map fst (emotion_dict w)
  = ["happy"; "sad"; "anger"; "fear"; "surprise"; "disgust"].
Proof. reflexivity. Qed.

Lemma emotion_dict_NoDup (w : World) : NoDup (map fst (emotion_dict w)).
Proof.
  rewrite emotion_dict_keys.
  repeat constructor; cbn; intuition discriminate.
Qed.

(** X18.  Whatever the six draws, the prevailing emotion of
    [cmd_user_data] is a label of [emotion_dict] that has an emoji (the
    lookup in [emotion_to_emoji] cannot raise [KeyError]), and it is the
    first entry with the maximal draw: the entries before it are strictly
    smaller, the entries after it smaller or equal. *)
Theorem user_data_prevailing_emotion :
  forall w : World,
  exists (label : string) (score : Q) (face : Face)
         (before after : Emotions),
    prevailing_emotion w = Returns label
    /\ emotion_to_emoji label = Returns face
    /\ emotion_dict w = before ++ (label, score) :: after
    /\ (forall x, In x before -> (snd x < score)%Q)
    /\ (forall x, In x after -> (snd x <= score)%Q).
Proof.
  intros w.
  pose proof (emotion_dict_NoDup w) as Hnd.
  pose proof (@dict_get_entry _ Hnd) as Hget.
  assert (Hscore : forall x, In x (emotion_dict w) ->
                             score_in (emotion_dict w) (fst x) = snd x).
  { intros [k v] Hx. cbn [fst snd]. unfold score_in.
    now rewrite (Hget k v Hx). }
  destruct (@max_by_first_maximal _ (score_in (emotion_dict w))
              (map fst (emotion_dict w)) ltac:(discriminate))
    as (best & kb & ka & Emax & Ekeys & Hb & Ha).
  apply map_eq_app in Ekeys as (before & rest & Ed & Eb & Er).
  apply map_eq_cons in Er as ([label score] & after & -> & El & Ea).
  cbn in El. subst best kb ka.
  assert (Hin : In (label, score) (emotion_dict w))
    by (rewrite Ed; apply in_or_app; right; now left).
  assert (Hface : exists face, emotion_to_emoji label = Returns face).
  { assert (Hk : In label (map fst (emotion_dict w)))
      by (change label with (fst (label, score)); now apply in_map).
    rewrite emotion_dict_keys in Hk.
    repeat destruct Hk as [<- | Hk]; try (eexists; reflexivity).
    destruct Hk. }
  destruct Hface as (face & Eface).
  pose proof (Hscore _ Hin) as Hs. cbn [fst snd] in Hs.
  rewrite Hs in Hb, Ha.
  exists label, score, face, before, after.
  repeat split; auto.
  - intros x Hx. rewrite <- (Hscore x).
    + apply Hb. now apply in_map.
    + rewrite Ed. apply in_or_app. now left.
  - intros x Hx. rewrite <- (Hscore x).
    + apply Ha. now apply in_map.
    + rewrite Ed. apply in_or_app. right. now right.
Qed.

Lemma user_data_prevailing_emotion_aux (w : World) :
  exists (label : string) (face : Face),
    prevailing_emotion w = Returns label
    /\ emotion_to_emoji label = Returns face.
Proof.
  destruct (@max_by_first_maximal _ (score_in (emotion_dict w))
              (map fst (emotion_dict w)) ltac:(discriminate))
    as (best & kb & ka & Emax & Ekeys & _).
  assert (Hk : In best (map fst (emotion_dict w)))
    by (rewrite Ekeys; apply in_or_app; right; now left).
  exists best. rewrite emotion_dict_keys in Hk.
  repeat destruct Hk as [<- | Hk]; try (eexists; split; [exact Emax |];
                                         reflexivity).
  destruct Hk.
Qed.

(** X19.  A run of [cmd_user_data] reacts with the emoji of the
    prevailing emotion and then answers with the user data; a reaction
    refused with [TelegramBadRequest] does not prevent the answer, any
    other exception of the reaction leaves the handler before the
    answer. *)
Theorem cmd_user_data_run :
  forall (w : World) (message : Message),
  exists (label : string) (face : Face),
    prevailing_emotion w = Returns label
    /\ emotion_to_emoji label = Returns face
    /\ match react w face with
       | ReactRaised e =>
           cmd_user_data w message
           = ([Do_react face (ReactRaised e)], Raises e)
       | r =>
           cmd_user_data w message
           = ([Do_react face r;
               Do_answer (UserData (from_user_id message) (emotion_dict w)
                            face label)],
              Returns tt)
       end.
Proof.
  intros w message.
  destruct (user_data_prevailing_emotion_aux w) as (label & face & El & Ef).
  exists label, face. split; [exact El | split; [exact Ef |]].
  unfold cmd_user_data. rewrite El. cbn. rewrite Ef. cbn.
  destruct (react w face); reflexivity.
Qed.

Lemma join_formatted_empty (cmds : list BotCommand) :
  join newline (map format_command cmds) = "" <-> cmds = [].
Proof.
  split; [| now intros ->].
  destruct cmds as [| c [| c' cmds]]; [reflexivity | |]; discriminate.
Qed.

(** X20.  [cmd_help] reads the module-level [bot]: before any [set_bot]
    it raises [AttributeError] and sends nothing; after [set_bot b] it
    asks [b] (whatever bot was set before) for its commands and answers
    once with their list, which is the empty text exactly when there is
    no command; an exception of [get_my_commands] leaves the handler and
    nothing is sent. *)
Theorem cmd_help_after_set_bot :
  (forall message,
      cmd_help initial_globals message = ([], Raises AttributeError))
  /\ (forall (b : Bot) (g : Globals) (message : Message),
         cmd_help (set_bot b g) message
         = cmd_help (set_bot b initial_globals) message
         /\ match get_my_commands b with
            | Returns cmds =>
                exists lines,
                  cmd_help (set_bot b g) message
                  = ([Do_get_my_commands (Returns cmds);
                      Do_answer (HelpText lines)],
                     Returns tt)
                  /\ (lines = "" <-> cmds = [])
                  /\ (forall c rest,
                         cmds = c :: rest ->
                         String.prefix ("/" ++ command c ++ ": "
                                          ++ description c) lines = true)
            | Raises e =>
                cmd_help (set_bot b g) message
                = ([Do_get_my_commands (Raises e)], Raises e)
            end).
Proof.
  split; [reflexivity |].
  intros b g message. split; [reflexivity |].
  unfold cmd_help, set_bot. cbn [bot].
  destruct (get_my_commands b) as [cmds | e]; cbn; [| reflexivity].
  eexists. split; [reflexivity | split; [apply join_formatted_empty |]].
  intros c rest ->.
  change (String.prefix (format_command c)
            (join newline (map format_command (c :: rest))) = true).
  assert (Hp : forall s t, String.prefix s (s ++ t)%string = true).
  { induction s as [| a s IH]; intros t; cbn; [now destruct t |].
    destruct (ascii_dec a a); [apply IH | congruence]. }
  destruct rest as [| c' rest].
  - cbn [map join]. generalize (format_command c). clear.
    induction s as [| a s IH]; cbn; [reflexivity |].
    destruct (ascii_dec a a); [exact IH | congruence].
  - change (join newline (map format_command (c :: c' :: rest)))
      with (format_command c
              ++ newline ++ join newline (map format_command (c' :: rest)))%string.
    apply Hp.
Qed.

(** X21.  [cmd_start] and [cmd_about] have no catch-all: an exception of
    a collaborator ([get_database], [add_user], or reading the about file
    with an error other than [FileNotFoundError]) leaves the handler and
    nothing is sent; in every other run exactly one message is sent:
    the greeting once the user is added, the about text, or the
    "unavailable" notice when the file is missing. *)
Theorem unguarded_handlers :
  forall (w : World) (message : Message),
    ((cmd_start w message
      = ([Do_get_database (Returns tt);
          Do_add_user (from_user_id message) (Returns tt);
          Do_answer Hello],
         Returns tt))
     \/ (exists e,
            snd (cmd_start w message) = Raises e
            /\ sent (fst (cmd_start w message)) = []
            /\ (w_get_database w = Raises e
                \/ add_user w (from_user_id message) = Raises e)))
    /\ ((snd (cmd_about w message) = Returns tt
         /\ ((exists about_text,
                 read_text w = FileText about_text
                 /\ sent (fst (cmd_about w message))
                    = [AboutText about_text])
             \/ (read_text w = FileNotFoundError
                 /\ sent (fst (cmd_about w message)) = [AboutUnavailable])))
        \/ (exists e,
               read_text w = ReadRaised e
               /\ snd (cmd_about w message) = Raises e
               /\ sent (fst (cmd_about w message)) = [])).
Proof.
  intros w message. split.
  - unfold cmd_start.
    destruct (w_get_database w) as [[] | e]; cbn; [| right; eauto].
    destruct (add_user w (from_user_id message)) as [[] | e]; cbn;
      [now left | right; eauto].
  - unfold cmd_about.
    destruct (read_text w) as [about_text | | e]; cbn.
    + left. split; [reflexivity |]. left. eauto.
    + left. split; [reflexivity |]. right. auto.
    + right. eauto.
Qed.

End ChatHandlers.

(** ** The further properties on sample runs *)

Section MoreSampleRuns.

Import Scenario MoreScenarios.

Local Open Scope string_scope.
Local Open Scope list_scope.

Let generate : Message := message_of "/generate very happy".

Lemma poetry_request_from_emotions_witness :
  In (Call_generate_poem {| pg_user_id := 42; pg_emotions := happy_sad |}
        (Returns None))
     (trace (cmd_format poetry_down generate))
  /\ exists request response,
      {| pg_user_id := 42; pg_emotions := happy_sad |}
      = {| pg_user_id := from_user_id generate;
           pg_emotions := emotions response |}
      /\ In (Call_analyze_emotions request (Returns (Some response)))
            (before_first is_poetry_call
               (trace (cmd_format poetry_down generate)))
      /\ In (Call_log_emotion_analysis (from_user_id generate)
               (emotions response) (Returns tt))
            (before_first is_poetry_call
               (trace (cmd_format poetry_down generate))).
Proof.
  assert (H : In (Call_generate_poem
                    {| pg_user_id := 42; pg_emotions := happy_sad |}
                    (Returns None))
                 (trace (cmd_format poetry_down generate)))
    by (cbn; auto 10).
  split; [exact H |].
  exact (@poetry_request_from_emotions poetry_down generate _ _ H).
Defined.

Lemma analyzed_text_is_command_argument_witness :
  In (Call_analyze_emotions {| ea_user_id := 42; ea_message := "very happy" |}
        (analyze_emotions all_up
           {| ea_user_id := 42; ea_message := "very happy" |}))
     (trace (cmd_format all_up generate))
  /\ command_text generate = Returns "very happy".
Proof.
  assert (H : In (Call_analyze_emotions
                    {| ea_user_id := 42; ea_message := "very happy" |}
                    (analyze_emotions all_up
                       {| ea_user_id := 42; ea_message := "very happy" |}))
                 (trace (cmd_format all_up generate)))
    by (cbn; auto 10).
  split; [exact H |].
  exact (proj1 (proj2 (@analyzed_text_is_command_argument all_up generate
                         _ _ (or_intror H)))).
Defined.

Lemma cmd_history_query_bounds_witness :
  In (Call_get_user_history 42 20 (get_user_history all_up 42 20))
     (trace (cmd_history all_up (message_of "/history 100")))
  /\ history_limit (message_of "/history 100") = Returns 20%Z
  /\ (0 <= 20 <= MAX_LIMIT)%Z.
Proof.
  assert (H : In (Call_get_user_history 42 20 (get_user_history all_up 42 20))
                 (trace (cmd_history all_up (message_of "/history 100"))))
    by (cbn; auto 10).
  split; [exact H |].
  destruct (@cmd_history_query_bounds all_up (message_of "/history 100")
              _ _ _ H) as (_ & Hl & Hr & _).
  split; [exact Hl | exact Hr].
Defined.

Lemma cmd_history_empty_history_witness :
  In (Call_get_user_history 42 5 (Returns no_history))
     (trace (cmd_history (with_history no_history) (message_of "/history")))
  /\ h_emotions no_history = []
  /\ h_generations no_history = []
  /\ cmd_history (with_history no_history) (message_of "/history")
     = ([Call_get_database (Returns tt);
         Call_get_user_history 42 5 (Returns no_history);
         Answer HistoryEmpty],
        Returns tt).
Proof.
  assert (H : In (Call_get_user_history 42 5 (Returns no_history))
                 (trace (cmd_history (with_history no_history)
                           (message_of "/history"))))
    by (cbn; auto 10).
  split; [exact H | split; [reflexivity | split; [reflexivity |]]].
  exact (@cmd_history_empty_history (with_history no_history)
           (message_of "/history") 5%Z no_history H eq_refl eq_refl).
Defined.

Lemma cmd_history_superscript_digit_witness :
  history_args history_superscript = Returns [String (ascii_of_N 178) ""]
  /\ all_chars (fun c => isdecimal c || is_superscript c)
       (String (ascii_of_N 178) "") = true
  /\ any_char is_superscript (String (ascii_of_N 178) "") = true
  /\ cmd_history all_up history_superscript
     = ([Logging_error ValueError; Reply HistoryError], Returns tt).
Proof.
  split; [reflexivity | split; [reflexivity | split; [reflexivity |]]].
  exact (@cmd_history_superscript_digit all_up history_superscript
           (String (ascii_of_N 178) "") [] eq_refl eq_refl eq_refl).
Defined.

Lemma stored_history_mappings :
  forall r, In r (h_emotions stored_history) -> er_emotions r <> [].
Proof. intros r [<- | [<- | []]]; discriminate. Qed.

Lemma cmd_history_listing_witness :
  In (Call_get_user_history 42 7 (Returns stored_history))
     (trace (cmd_history (with_history stored_history)
               (message_of "/history 7")))
  /\ exists lines,
      replies (trace (cmd_history (with_history stored_history)
                        (message_of "/history 7")))
      = [HistoryListing lines]
      /\ List.length lines = 5%nat
      /\ nth_error lines 2
         = Some (EmotionLine 2 1700000000 ("happy", 9 # 10)).
Proof.
  assert (H : In (Call_get_user_history 42 7 (Returns stored_history))
                 (trace (cmd_history (with_history stored_history)
                           (message_of "/history 7"))))
    by (vm_compute; auto 10).
  split; [exact H |].
  assert (Hne : h_emotions stored_history <> []
                \/ h_generations stored_history <> [])
    by (left; discriminate).
  pose proof (@cmd_history_listing (with_history stored_history)
                (message_of "/history 7") 7%Z stored_history H
                stored_history_mappings Hne) as Hlisting.
  destruct Hlisting as (lines & Hr & _ & _ & Hlen & _ & Hnth & _).
  exists lines. split; [exact Hr | split; [exact Hlen |]].
  destruct (Hnth 1%nat tied_record eq_refl) as (top & Etop & Hl).
  rewrite Hl. f_equal. f_equal.
  vm_compute in Etop. now injection Etop as <-.
Defined.

Lemma history_args_are_words_witness :
  history_args (message_of "/history  7 x ") = Returns ["7"; "x"]
  /\ In "7" ["7"; "x"]
  /\ is_word "7".
Proof.
  split; [reflexivity | split; [now left |]].
  exact (@history_args_are_words (message_of "/history  7 x ") ["7"; "x"] "7"
           eq_refl (or_introl eq_refl)).
Defined.

Lemma all_up_available : services_available all_up.
Proof. repeat split. Qed.

Lemma health_each_service_probed_once_witness :
  services_available poetry_down
  /\ probes_of poetry
       (trace (cmd_health poetry_down [2; 0]%nat (message_of "/health")))
     = 1%nat
  /\ List.length
       (tables
          (trace (cmd_health poetry_down [2; 0]%nat (message_of "/health"))))
     = 4%nat.
Proof.
  assert (Ha : services_available poetry_down) by (repeat split).
  split; [exact Ha |].
  destruct (@health_each_service_probed_once poetry_down
              (message_of "/health") [2; 0]%nat Ha) as (Hp & Ht).
  split; [exact (Hp poetry) | exact Ht].
Defined.

Lemma health_progress_display_witness :
  services_available all_up
  /\ map pending
       (tables (trace (cmd_health all_up [1; 1]%nat (message_of "/health"))))
     = [3; 2; 1; 0]%nat.
Proof.
  split; [exact all_up_available |].
  exact (proj1 (@health_progress_display all_up (message_of "/health")
                  [1; 1]%nat all_up_available)).
Defined.

Lemma health_status_of_probe_witness :
  exists final : StatusMap,
    services_available poetry_down
    /\ outcome (cmd_health poetry_down [] (message_of "/health"))
       = Returns final
    /\ final emotion = success
    /\ final poetry = error.
Proof.
  eexists. split; [repeat split |]. split; [reflexivity |].
  assert (Ha : services_available poetry_down) by (repeat split).
  pose proof (@health_status_of_probe poetry_down (message_of "/health")
                [] _ emotion Ha eq_refl) as (He & _).
  split; [| reflexivity].
  apply (proj2 He). exists (1 # 2). split; reflexivity.
Defined.

Lemma database_down_unavailable : ~ services_available database_down.
Proof. intros (_ & _ & H). discriminate H. Qed.

Lemma health_critical_path_witness :
  ~ services_available database_down
  /\ closing_signal
       (trace (cmd_health database_down [] (message_of "/health")))
     = Some WARNING
  /\ probes_of database
       (trace (cmd_health database_down [] (message_of "/health")))
     = 0%nat.
Proof.
  split; [exact database_down_unavailable |].
  destruct (@health_critical_path database_down (message_of "/health") []
              database_down_unavailable) as (_ & Hc & Hp & _).
  split; [exact Hc | exact (Hp database)].
Defined.

(** C8, the claim as stated fails: the emotion service returns a
    response, the lookup of the database handle that follows raises, and
    no EmotionRecord is written. *)
Lemma cmd_emotions_database_down_counterexample :
  In (Call_analyze_emotions {| ea_user_id := 42; ea_message := "very happy" |}
        (Returns (Some {| emotions := happy_sad |})))
     (trace (cmd_emotions database_down (message_of "/emotions very happy")))
  /\ history_writes
       (trace (cmd_emotions database_down
                 (message_of "/emotions very happy"))) = []
  /\ emotion_writes
       (trace (cmd_emotions database_down
                 (message_of "/emotions very happy"))) <> 1%nat
  /\ replies
       (trace (cmd_emotions database_down
                 (message_of "/emotions very happy")))
     = [EmotionAnalysisError].
Proof.
  split; [cbn; auto 10 |]. split; [reflexivity |].
  split; [discriminate | reflexivity].
Qed.

End MoreSampleRuns.
